(** * GitGrade analyzer: the repository analysis pipeline of
    [src/backend/analyzer.js], embedded and verified.

    The file follows the class [RepoAnalyzer] method by method:
    [parseRepoUrl], [fetchMetrics] (with [checkForTests] and
    [checkForCICD]), [calculateScore], [generateAIInsights] and
    [analyzeRepository].  JavaScript strings are sequences of code
    units; the code units modelled here are the 256 values of [ascii]
    (the Latin-1 range).  Numbers are the integers [Z]: every number the
    analyzer handles is a count or a length. *)

From Stdlib Require Import ZArith Ascii String DecimalString Lia Bool.
From stdpp Require Import gmap strings list.

Local Open Scope Z_scope.

(** * The string methods the analyzer calls *)

Module Js.

Definition empty : string := EmptyString.

Definition isEmpty (s : string) : bool :=
  match s with EmptyString => true | String _ _ => false end.

(** Line feed, the separator of [split('\n')]. *)
Definition LF : ascii := "010"%char.
Definition nl : string := String LF EmptyString.

(** [WhiteSpace] and [LineTerminator] of ECMAScript, which [trim] and
    the regular expression class [\s] share, in the Latin-1 range:
    TAB, LF, VT, FF, CR, SP and NBSP. *)
Definition isWhiteSpace (c : ascii) : bool :=
  existsb (Ascii.eqb c)
    ["009"; "010"; "011"; "012"; "013"; "032"; "160"]%char.

Fixpoint trimStart (s : string) : string :=
  match s with
  | EmptyString => EmptyString
  | String c s' => if isWhiteSpace c then trimStart s' else s
  end.

Fixpoint trimEnd (s : string) : string :=
  match s with
  | EmptyString => EmptyString
  | String c s' =>
      let t := trimEnd s' in
      if isWhiteSpace c && isEmpty t then EmptyString else String c t
  end.

(** [s.trim()] *)
Definition trim (s : string) : string := trimEnd (trimStart s).

(** [stripPrefix p s] is [Some r] exactly when [s = p ++ r]. *)
Fixpoint stripPrefix (p s : string) : option string :=
  match p with
  | EmptyString => Some s
  | String a p' =>
      match s with
      | EmptyString => None
      | String b s' => if Ascii.eqb a b then stripPrefix p' s' else None
      end
  end.

(** [s.startsWith(p)] *)
Definition startsWith (s p : string) : bool :=
  match stripPrefix p s with Some _ => true | None => false end.

(** The first occurrence of [pat] in [s]: the text before it and the
    text after it. *)
Fixpoint findFirst (pat s : string) : option (string * string) :=
  match stripPrefix pat s with
  | Some rest => Some (EmptyString, rest)
  | None =>
      match s with
      | EmptyString => None
      | String c s' =>
          match findFirst pat s' with
          | Some (before, after) => Some (String c before, after)
          | None => None
          end
      end
  end.

(** [s.includes(pat)] *)
Definition includes (s pat : string) : bool :=
  match findFirst pat s with Some _ => true | None => false end.

(** [s.replace(pat, rep)] with a string pattern: only the first
    occurrence is replaced.  ([rep] is used literally; the analyzer
    only ever passes the empty replacement.) *)
Definition replace (s pat rep : string) : string :=
  match findFirst pat s with
  | Some (before, after) => before +:+ rep +:+ after
  | None => s
  end.

(** [s.split(sep)] for a non-empty separator.  Each step cuts at the
    first occurrence of [sep] and goes on in the text after it, which
    is shorter; [n] bounds the number of cuts. *)
Fixpoint splitN (n : nat) (sep s : string) : list string :=
  match n with
  | O => [s]
  | S n' =>
      match findFirst sep s with
      | Some (before, after) => before :: splitN n' sep after
      | None => [s]
      end
  end.

Definition split (s sep : string) : list string :=
  splitN (String.length s) sep s.

(** [l.join(sep)] *)
Fixpoint join (sep : string) (l : list string) : string :=
  match l with
  | [] => EmptyString
  | [x] => x
  | x :: l' => x +:+ sep +:+ join sep l'
  end.

(** [l.slice(0, n)] *)
Definition slice0 {A} (n : nat) (l : list A) : list A := firstn n l.

(** [c.toLowerCase()] on one Latin-1 code unit: A-Z, and the accented
    capitals 192-222 except the multiplication sign 215. *)
Definition lowerChar (c : ascii) : ascii :=
  let n := N_of_ascii c in
  if ((65 <=? n) && (n <=? 90))%N then ascii_of_N (n + 32)
  else if ((192 <=? n) && (n <=? 222) && negb (n =? 215))%N
       then ascii_of_N (n + 32)
  else c.

Fixpoint toLowerCase (s : string) : string :=
  match s with
  | EmptyString => EmptyString
  | String c s' => String (lowerChar c) (toLowerCase s')
  end.

(** [s.replace(/^-\s*/, '')]: without the [m] flag [^] is the start of
    the string, so the pattern matches only when [s] itself begins
    with a hyphen, and then takes the hyphen and all the whitespace
    after it. *)
Definition replaceLeadingDash (s : string) : string :=
  match s with
  | String "-"%char s' => trimStart s'
  | _ => s
  end.

(** Template-literal interpolation of an integer and of a boolean. *)
Definition ofNumber (n : Z) : string :=
  NilZero.string_of_int (Z.to_int n).

Definition ofBoolean (b : bool) : string :=
  if b then "true" else "false".

End Js.

(** * Thrown errors *)

(** Every failure in the analyzer is a JavaScript [Error] of which only
    [message] is read. *)
Inductive JsError : Type := Error (message : string).

Definition message (e : JsError) : string :=
  match e with Error m => m end.

(** The outcome of evaluating an expression that may throw. *)
Inductive completion (A : Type) : Type :=
| Return (value : A)
| Throw (error : JsError).
Arguments Return {A} value.
Arguments Throw {A} error.

Definition bind {A B} (c : completion A) (k : A -> completion B)
  : completion B :=
  match c with
  | Return a => k a
  | Throw e => Throw e
  end.

(** [try { body } catch (error) { handler }] *)
Definition try_catch {A} (body : completion A)
  (handler : JsError -> completion A) : completion A :=
  match body with
  | Return a => Return a
  | Throw e => handler e
  end.

Declare Scope js_scope.
Delimit Scope js_scope with js.
Notation "x <- c ;; k" := (bind c (fun x => k))
  (at level 100, c at next level, right associativity) : js_scope.

(** * The metrics record, at its documented types *)

Record MetricsRecord : Type := {
  name : string;
  stars : Z;
  forks : Z;
  watchers : Z;
  open_issues : Z;
  primary_language : string;
  languages : list string;
  has_readme : bool;
  readme_length : Z;
  total_commits : Z;
  recent_commits : Z;
  branch_count : Z;
  total_prs : Z;
  has_tests : bool;
  has_cicd : bool
}.

(** * calculateScore *)

(** The body of [calculateScore] is seven statements that each add to the
    local [score]; each one is a function from the score before to the
    score after it. *)

(** README (20 points) *)
Definition score_readme (metrics : MetricsRecord) (score : Z) : Z :=
  if has_readme metrics then
    if readme_length metrics >? 1000 then score + 20
    else if readme_length metrics >? 500 then score + 15
    else score + 10
  else score.

(** Commits (25 points); [Math.floor (n / 2)] is [n / 2] on [Z]. *)
Definition score_commits (metrics : MetricsRecord) (score : Z) : Z :=
  if total_commits metrics >=? 100 then score + 25
  else if total_commits metrics >=? 50 then score + 20
  else if total_commits metrics >=? 20 then score + 15
  else score + Z.max 5 (total_commits metrics / 2).

(** Recent activity (15 points) *)
Definition score_recent (metrics : MetricsRecord) (score : Z) : Z :=
  if recent_commits metrics >? 20 then score + 15
  else if recent_commits metrics >? 10 then score + 10
  else if recent_commits metrics >? 0 then score + 5
  else score.

(** Tests (20 points) *)
Definition score_tests (metrics : MetricsRecord) (score : Z) : Z :=
  if has_tests metrics then score + 20 else score.

(** CI/CD (10 points) *)
Definition score_cicd (metrics : MetricsRecord) (score : Z) : Z :=
  if has_cicd metrics then score + 10 else score.

(** Branches (5 points) *)
Definition score_branches (metrics : MetricsRecord) (score : Z) : Z :=
  if branch_count metrics >? 3 then score + 5
  else if branch_count metrics >? 1 then score + 3
  else score.

(** Pull Requests (5 points) *)
Definition score_prs (metrics : MetricsRecord) (score : Z) : Z :=
  if total_prs metrics >? 10 then score + 5
  else if total_prs metrics >? 0 then score + 3
  else score.

Definition calculateScore (metrics : MetricsRecord) : Z :=
  let score := 0 in
  let score := score_readme metrics score in
  let score := score_commits metrics score in
  let score := score_recent metrics score in
  let score := score_tests metrics score in
  let score := score_cicd metrics score in
  let score := score_branches metrics score in
  let score := score_prs metrics score in
  Z.min 100 score.

(** The rule table of the specification, one function per dimension,
    written from the table and not from the code. *)
Module Rules.

Definition readme (m : MetricsRecord) : Z :=
  if negb (has_readme m) then 0
  else if 1000 <? readme_length m then 20
  else if 500 <? readme_length m then 15
  else 10.

Definition commit_volume (m : MetricsRecord) : Z :=
  if 100 <=? total_commits m then 25
  else if 50 <=? total_commits m then 20
  else if 20 <=? total_commits m then 15
  else Z.max 5 (total_commits m / 2).

Definition recent_activity (m : MetricsRecord) : Z :=
  if 20 <? recent_commits m then 15
  else if 10 <? recent_commits m then 10
  else if 0 <? recent_commits m then 5
  else 0.

Definition tests (m : MetricsRecord) : Z :=
  if has_tests m then 20 else 0.

Definition cicd (m : MetricsRecord) : Z :=
  if has_cicd m then 10 else 0.

Definition branch_usage (m : MetricsRecord) : Z :=
  if 3 <? branch_count m then 5
  else if 1 <? branch_count m then 3
  else 0.

Definition pull_requests (m : MetricsRecord) : Z :=
  if 10 <? total_prs m then 5
  else if 0 <? total_prs m then 3
  else 0.

Definition total (m : MetricsRecord) : Z :=
  readme m + commit_volume m + recent_activity m + tests m + cicd m
  + branch_usage m + pull_requests m.

End Rules.

(** * parseRepoUrl *)

Record RepositoryReference : Type := {
  owner : string;
  repo : string
}.

(** The class [[^\/]+] run greedily: the longest prefix of [s] without a
    slash, and what follows it (empty, or starting with the slash). *)
Fixpoint spanSegment (s : string) : string * string :=
  match s with
  | EmptyString => (EmptyString, EmptyString)
  | String c s' =>
      if Ascii.eqb c "/" then (EmptyString, s)
      else let (seg, rest) := spanSegment s' in (String c seg, rest)
  end.

(** [/github\.com\/([^\/]+)\/([^\/]+)/] anchored at the start of [s].
    The first group must be followed by a slash, and a shorter first
    group would be followed by a character that is not one, so
    backtracking never finds a match other than the greedy one; the
    second group is greedy and nothing follows it. *)
Definition matchHere (s : string) : option (string * string) :=
  match Js.stripPrefix "github.com/" s with
  | None => None
  | Some s1 =>
      let (g1, s2) := spanSegment s1 in
      if Js.isEmpty g1 then None
      else match s2 with
           | String "/"%char s3 =>
               let (g2, _) := spanSegment s3 in
               if Js.isEmpty g2 then None else Some (g1, g2)
           | _ => None
           end
  end.

(** [url.match(re)] without the [g] flag: the leftmost position at which
    the expression matches, with its two groups. *)
Fixpoint urlMatch (url : string) : option (string * string) :=
  match matchHere url with
  | Some groups => Some groups
  | None =>
      match url with
      | EmptyString => None
      | String _ url' => urlMatch url'
      end
  end.

Definition parseRepoUrl (url : string) : completion RepositoryReference :=
  match urlMatch url with
  | None => Throw (Error "Invalid GitHub URL")
  | Some (match1, match2) =>
      Return {| owner := match1;
                repo := Js.replace match2 ".git" EmptyString |}
  end.

(** What the specification asks of the repository name: a [.git] at the
    end of the name is removed, and nothing else.  Written from the
    specification, to be compared with [parseRepoUrl]. *)
Fixpoint stripTrailingGit (s : string) : string :=
  match s with
  | EmptyString => EmptyString
  | String c s' =>
      if String.eqb s ".git" then EmptyString
      else String c (stripTrailingGit s')
  end.

(** No slash in [s]: what one group of the expression can hold. *)
Fixpoint slashFree (s : string) : bool :=
  match s with
  | EmptyString => true
  | String c s' => negb (Ascii.eqb c "/") && slashFree s'
  end.

(** [rest] is what may follow the second group: the end of the text, or
    a slash. *)
Definition endOrSlash (rest : string) : Prop :=
  rest = EmptyString \/ exists rest', rest = String "/" rest'.

(** * The hosting API, as the analyzer sees it *)

(** The fields of the repository metadata that [fetchMetrics] reads;
    [language] is [null] for a repository without detected language. *)
Record RepoData : Type := {
  repo_name : string;
  stargazers_count : Z;
  forks_count : Z;
  watchers_count : Z;
  open_issues_count : Z;
  language : option string
}.

(** A commit, of which only [commit.author.date] is read: the instant
    in milliseconds. *)
Record Commit : Type := { author_date : Z }.

(** The answer of the contents endpoint: the entry names of a directory,
    or a single file. *)
Inductive Content : Type :=
| Directory (entries : list string)
| File (entry : string).

(** The client: each call answers or throws.  [repos_listLanguages]
    answers an object from language to byte count, of which the keys are
    read, in the order of the host. *)
Record Octokit : Type := {
  repos_get : string -> string -> completion RepoData;
  repos_listLanguages : string -> string -> completion (list (string * Z));
  repos_getReadme : string -> string -> completion string;
  repos_listCommits : string -> string -> completion (list Commit);
  repos_listBranches : string -> string -> completion (list string);
  pulls_list : string -> string -> completion (list Z);
  repos_getContent : string -> string -> string -> completion Content
}.

(** The values stored under the keys of the [metrics] object. *)
Inductive JsValue : Type :=
| JsString (s : string)
| JsNumber (n : Z)
| JsBoolean (b : bool)
| JsArray (l : list string).

Definition testIndicators : list string :=
  ["test"; "tests"; "__tests__"; "spec"; "specs"].

Definition cicdPaths : list string :=
  [".github/workflows"; ".gitlab-ci.yml"; ".travis.yml"; "Jenkinsfile";
   ".circleci/config.yml"].

(** [repoData.language || 'Unknown']: [null] and the empty string are
    falsy. *)
Definition languageOrUnknown (l : option string) : string :=
  match l with
  | Some s => if Js.isEmpty s then "Unknown" else s
  | None => "Unknown"
  end.

Section Fetcher.

(** The client handle, the length in bytes of a base64 text once decoded
    ([Buffer.from(content, 'base64').length]), and the instant three
    calendar months before the fetch. *)
Variable octokit : Octokit.
Variable base64Length : string -> Z.
Variable threeMonthsAgo : Z.

(** [contents.some] on a single file is not a function: the [TypeError]
    is caught like a failed call. *)
Definition checkForTests (owner repo : string) : bool :=
  match repos_getContent octokit owner repo EmptyString with
  | Return (Directory contents) =>
      existsb (fun item =>
        existsb (fun indicator =>
          Js.includes (Js.toLowerCase item) indicator) testIndicators)
        contents
  | Return (File _) => false
  | Throw _ => false
  end.

(** The loop of [checkForCICD] over the remaining paths. *)
Fixpoint probePaths (owner repo : string) (paths : list string) : bool :=
  match paths with
  | [] => false
  | path :: rest =>
      match repos_getContent octokit owner repo path with
      | Return _ => true
      | Throw _ => probePaths owner repo rest
      end
  end.

Definition checkForCICD (owner repo : string) : bool :=
  probePaths owner repo cicdPaths.

Definition fetchMetrics (owner repo : string)
  : completion (gmap string JsValue) :=
  let metrics : gmap string JsValue := ∅ in
  try_catch
    (repoData <- repos_get octokit owner repo ;;
     let metrics := <["name" := JsString (repo_name repoData)]> metrics in
     let metrics :=
       <["stars" := JsNumber (stargazers_count repoData)]> metrics in
     let metrics := <["forks" := JsNumber (forks_count repoData)]> metrics in
     let metrics :=
       <["watchers" := JsNumber (watchers_count repoData)]> metrics in
     let metrics :=
       <["open_issues" := JsNumber (open_issues_count repoData)]> metrics in
     let metrics :=
       <["primary_language" :=
           JsString (languageOrUnknown (language repoData))]> metrics in
     languages <- repos_listLanguages octokit owner repo ;;
     let metrics := <["languages" := JsArray (map fst languages)]> metrics in
     let metrics :=
       match repos_getReadme octokit owner repo with
       | Return readme =>
           let metrics := <["has_readme" := JsBoolean true]> metrics in
           <["readme_length" := JsNumber (base64Length readme)]> metrics
       | Throw _ =>
           let metrics := <["has_readme" := JsBoolean false]> metrics in
           <["readme_length" := JsNumber 0]> metrics
       end in
     commits <- repos_listCommits octokit owner repo ;;
     let metrics :=
       <["total_commits" := JsNumber (Z.of_nat (length commits))]> metrics in
     let metrics :=
       <["recent_commits" :=
           JsNumber (Z.of_nat (length
             (List.filter (fun commit => author_date commit >? threeMonthsAgo)
                commits)))]> metrics in
     branches <- repos_listBranches octokit owner repo ;;
     let metrics :=
       <["branch_count" := JsNumber (Z.of_nat (length branches))]> metrics in
     let metrics :=
       match pulls_list octokit owner repo with
       | Return prs =>
           <["total_prs" := JsNumber (Z.of_nat (length prs))]> metrics
       | Throw _ => <["total_prs" := JsNumber 0]> metrics
       end in
     let metrics :=
       <["has_tests" := JsBoolean (checkForTests owner repo)]> metrics in
     let metrics :=
       <["has_cicd" := JsBoolean (checkForCICD owner repo)]> metrics in
     Return metrics)%js
    (fun error =>
       Throw (Error ("Failed to fetch metrics: " +:+ message error))).

End Fetcher.

(** ** Reading the [metrics] object at its documented types *)

Definition getString (o : gmap string JsValue) (k : string) : option string :=
  match o !! k with Some (JsString s) => Some s | _ => None end.

Definition getNumber (o : gmap string JsValue) (k : string) : option Z :=
  match o !! k with Some (JsNumber n) => Some n | _ => None end.

Definition getBoolean (o : gmap string JsValue) (k : string) : option bool :=
  match o !! k with Some (JsBoolean b) => Some b | _ => None end.

Definition getArray (o : gmap string JsValue) (k : string)
  : option (list string) :=
  match o !! k with Some (JsArray l) => Some l | _ => None end.

(** The fifteen keys of a metrics record. *)
Definition metricsKeys : gset string :=
  {[ "name"; "stars"; "forks"; "watchers"; "open_issues";
     "primary_language"; "languages"; "has_readme"; "readme_length";
     "total_commits"; "recent_commits"; "branch_count"; "total_prs";
     "has_tests"; "has_cicd" ]}.

(** [Some] exactly when every key is present with a value of its type. *)
Definition asRecord (o : gmap string JsValue) : option MetricsRecord :=
  v_name ← getString o "name";
  v_stars ← getNumber o "stars";
  v_forks ← getNumber o "forks";
  v_watchers ← getNumber o "watchers";
  v_open_issues ← getNumber o "open_issues";
  v_primary_language ← getString o "primary_language";
  v_languages ← getArray o "languages";
  v_has_readme ← getBoolean o "has_readme";
  v_readme_length ← getNumber o "readme_length";
  v_total_commits ← getNumber o "total_commits";
  v_recent_commits ← getNumber o "recent_commits";
  v_branch_count ← getNumber o "branch_count";
  v_total_prs ← getNumber o "total_prs";
  v_has_tests ← getBoolean o "has_tests";
  v_has_cicd ← getBoolean o "has_cicd";
  Some {| name := v_name; stars := v_stars; forks := v_forks;
          watchers := v_watchers; open_issues := v_open_issues;
          primary_language := v_primary_language;
          languages := v_languages; has_readme := v_has_readme;
          readme_length := v_readme_length;
          total_commits := v_total_commits;
          recent_commits := v_recent_commits;
          branch_count := v_branch_count; total_prs := v_total_prs;
          has_tests := v_has_tests; has_cicd := v_has_cicd |}.

(** * generateAIInsights *)

Record InsightResult : Type := {
  summary : string;
  roadmap : list string
}.

Definition prompt (metrics : MetricsRecord) (score : Z) : string :=
  Js.join Js.nl
    [ "You are an expert code reviewer analyzing a GitHub repository. Based on these metrics, provide honest feedback.";
      EmptyString;
      "Repository Metrics:";
      "- Name: " +:+ name metrics;
      "- Primary Language: " +:+ primary_language metrics;
      "- Total Commits: " +:+ Js.ofNumber (total_commits metrics);
      "- Recent Commits (3 months): "
        +:+ Js.ofNumber (recent_commits metrics);
      "- Has README: " +:+ Js.ofBoolean (has_readme metrics);
      "- README Length: " +:+ Js.ofNumber (readme_length metrics)
        +:+ " characters";
      "- Has Tests: " +:+ Js.ofBoolean (has_tests metrics);
      "- Has CI/CD: " +:+ Js.ofBoolean (has_cicd metrics);
      "- Branches: " +:+ Js.ofNumber (branch_count metrics);
      "- Open Issues: " +:+ Js.ofNumber (open_issues metrics);
      "- Pull Requests: " +:+ Js.ofNumber (total_prs metrics);
      "- Stars: " +:+ Js.ofNumber (stars metrics);
      "- Languages: " +:+ Js.join ", " (Js.slice0 3 (languages metrics));
      EmptyString;
      "Calculated Score: " +:+ Js.ofNumber score +:+ "/100";
      EmptyString;
      "Please provide:";
      "1. A 2-3 sentence summary of the repository's strengths and weaknesses";
      "2. A personalized roadmap with 4-6 specific, actionable improvement items";
      EmptyString;
      "Format your response EXACTLY as:";
      "SUMMARY: [your summary]";
      "ROADMAP:";
      "- [item 1]";
      "- [item 2]";
      "- [item 3]";
      "etc." ].

(** The statements of the [try] block after the reply has arrived.  An
    absent [parts[0]] would throw on [.replace]; [parts[1]] is used when
    it is truthy, that is present and not empty. *)
Definition parseResponse (responseText : string) : completion InsightResult :=
  let parts := Js.split responseText "ROADMAP:" in
  match parts !! 0%nat with
  | None => Throw (Error "Cannot read properties of undefined")
  | Some part0 =>
      let summary := Js.trim (Js.replace part0 "SUMMARY:" EmptyString) in
      let roadmapText :=
        match parts !! 1%nat with
        | Some part1 =>
            if Js.isEmpty part1 then EmptyString else Js.trim part1
        | None => EmptyString
        end in
      let roadmap :=
        List.filter (fun item => (0 <? String.length item)%nat)
          (map (fun line => Js.trim (Js.replaceLeadingDash line))
             (List.filter (fun line => Js.startsWith (Js.trim line) "-")
                (Js.split roadmapText Js.nl))) in
      Return {| summary := summary; roadmap := roadmap |}
  end.

(** The [catch] block: the templated summary and the six roadmap
    items. *)
Definition fallbackSummary (metrics : MetricsRecord) (score : Z) : string :=
  if score >? 70 then
    "Repository demonstrates strong development practices with "
    +:+ Js.ofNumber (total_commits metrics) +:+ " commits and "
    +:+ (if has_tests metrics then "testing" else "active development")
    +:+ "."
  else if score >? 40 then
    "Repository shows moderate development practices. "
    +:+ (if has_readme metrics then "Has documentation"
         else "Needs documentation")
    +:+ " and "
    +:+ (if has_tests metrics then "includes tests" else "lacks tests")
    +:+ "."
  else
    "Repository is in early stages. Focus on establishing "
    +:+ (if negb (has_readme metrics) then "documentation, "
         else EmptyString)
    +:+ (if negb (has_tests metrics) then "testing, " else EmptyString)
    +:+ "and consistent development practices.".

Definition fallbackRoadmap (metrics : MetricsRecord) : list string :=
  [ if negb (has_readme metrics)
    then "Add comprehensive README with setup instructions and project overview"
    else "Expand README with usage examples and contribution guidelines";
    if negb (has_tests metrics)
    then "Implement unit tests for core functionality"
    else "Increase test coverage to 80%+";
    if negb (has_cicd metrics)
    then "Set up CI/CD pipeline using GitHub Actions"
    else "Enhance CI/CD with automated deployments";
    if recent_commits metrics <? 10
    then "Establish regular commit schedule (weekly minimum)"
    else "Maintain consistent commit patterns";
    if branch_count metrics <=? 1
    then "Adopt feature branch workflow (main + feature branches)"
    else "Continue effective branch management";
    "Add code documentation and inline comments for complex logic" ].

Definition fallback (metrics : MetricsRecord) (score : Z) : InsightResult :=
  {| summary := fallbackSummary metrics score;
     roadmap := fallbackRoadmap metrics |}.

Section Generator.

(** The generative model: [generateContent(prompt)] followed by
    [result.response.text()] answers the reply text or throws. *)
Variable generateContent : string -> completion string.

(** The [catch] block returns, so the method returns on every path;
    [console.error] only logs. *)
Definition generateAIInsights (metrics : MetricsRecord) (score : Z)
  : completion InsightResult :=
  try_catch
    (responseText <- generateContent (prompt metrics score) ;;
     parseResponse responseText)%js
    (fun error => Return (fallback metrics score)).

End Generator.

(** * analyzeRepository *)

Module Analysis.

Record t : Type := {
  score : Z;
  summary : string;
  roadmap : list string;
  metrics : gmap string JsValue
}.

End Analysis.

Section Orchestrator.

Variable octokit : Octokit.
Variable base64Length : string -> Z.
Variable threeMonthsAgo : Z.
Variable generateContent : string -> completion string.

(** [calculateScore] and [generateAIInsights] read the fields of
    [metrics] at their documented types, which is [asRecord]; an object
    without them is outside the model and is reported as a thrown
    [TypeError] ([fetchMetrics_typed] shows that the object
    [fetchMetrics] returns always has them). *)
Definition analyzeRepository (repoUrl : string) : completion Analysis.t :=
  try_catch
    (ref <- parseRepoUrl repoUrl ;;
     metrics <- fetchMetrics octokit base64Length threeMonthsAgo
                  (owner ref) (repo ref) ;;
     typed <- match asRecord metrics with
              | Some r => Return r
              | None => Throw (Error "TypeError")
              end ;;
     let score := calculateScore typed in
     insights <- generateAIInsights generateContent typed score ;;
     Return {| Analysis.score := score;
               Analysis.summary := summary insights;
               Analysis.roadmap := roadmap insights;
               Analysis.metrics := metrics |})%js
    (fun error => Throw (Error ("Analysis failed: " +:+ message error))).

End Orchestrator.

(** ** The reply, read line by line *)

(** A line is hyphen-bulleted when, once trimmed, it starts with a
    hyphen: the test of the first [filter] of [parseResponse]. *)
Definition hyphenBulleted (line : string) : bool :=
  Js.startsWith (Js.trim line) "-".

(** The text before the first [ROADMAP:] marker; the whole reply when it
    has none. *)
Definition beforeMarker (reply : string) : string :=
  match Js.findFirst "ROADMAP:" reply with
  | Some (before, _) => before
  | None => reply
  end.

(** The reply has no marker, or no hyphen-bulleted line in the text
    after its first marker. *)
Definition noBulletAfterMarker (reply : string) : Prop :=
  match Js.findFirst "ROADMAP:" reply with
  | Some (_, after) =>
      List.filter hyphenBulleted (Js.split after Js.nl) = []
  | None => True
  end.

(** The roadmap as the specification words it, from the text after the
    marker: the lines that after trimming start with a hyphen, with the
    leading hyphen and the whitespace after it stripped, empty results
    discarded.  Written from the specification, to be compared with
    [parseResponse]. *)
Definition specRoadmap (afterMarker : string) : list string :=
  List.filter (fun item => negb (Js.isEmpty item))
    (map (fun line => Js.replaceLeadingDash (Js.trim line))
       (List.filter hyphenBulleted (Js.split afterMarker Js.nl))).

(** The two values [parseResponse] computes on the way: the trimmed
    text between the first marker and the next, and the roadmap items of
    a text. *)
Definition roadmapTextOf (reply : string) : string :=
  match Js.findFirst "ROADMAP:" reply with
  | Some (_, after) =>
      Js.trim (match Js.findFirst "ROADMAP:" after with
               | Some (between, _) => between
               | None => after
               end)
  | None => EmptyString
  end.

Definition roadmapItems (roadmapText : string) : list string :=
  List.filter (fun item => (0 <? String.length item)%nat)
    (map (fun line => Js.trim (Js.replaceLeadingDash line))
       (List.filter hyphenBulleted (Js.split roadmapText Js.nl))).

(** [s.split('\n')], by recursion on [s]: a line feed closes the current
    line, any other character joins it. *)
Fixpoint linesOf (s : string) : list string :=
  match s with
  | EmptyString => [EmptyString]
  | String c s' =>
      if Ascii.eqb c Js.LF then EmptyString :: linesOf s'
      else match linesOf s' with
           | h :: t => String c h :: t
           | [] => [String c EmptyString]
           end
  end.

(** [p] put in front of the first line. *)
Definition prepend (p : string) (ls : list string) : list string :=
  match ls with
  | h :: t => (p +:+ h) :: t
  | [] => [p]
  end.

(** One pass over a text that answers whether no line of it is
    hyphen-bulleted; [lead] holds while only whitespace has been read on
    the current line. *)
Fixpoint noBulletFrom (lead : bool) (s : string) : bool :=
  match s with
  | EmptyString => true
  | String c s' =>
      if Ascii.eqb c Js.LF then noBulletFrom true s'
      else if lead then
        if Ascii.eqb c "-" then false
        else noBulletFrom (Js.isWhiteSpace c) s'
      else noBulletFrom false s'
  end.

(** A roadmap item as the prompt asks for it: not empty, without
    whitespace at either end, on one line. *)
Definition plainItem (item : string) : Prop :=
  item <> EmptyString
  /\ Js.trim item = item
  /\ Js.findFirst Js.nl item = None.

(** The bullet line of an item. *)
Definition bullet (item : string) : string := "- " +:+ item.

(** ** Sample replies *)

(** A reply in the requested format with five bullets. *)
Definition fiveBulletReply : string :=
  Js.join Js.nl
    [ "SUMMARY: Active project with tests but little documentation.";
      "ROADMAP:";
      "- Expand the README";
      "- Add a contribution guide";
      "- Set up continuous integration";
      "- Tag releases";
      "- Document the public API" ].

(** A reply whose second bullet is indented under the first. *)
Definition indentedReply : string :=
  Js.join Js.nl
    [ "SUMMARY: Solid start.";
      "ROADMAP:";
      "- Add tests";
      "  - Cover the parser" ].

(** A reply that ignores the requested format. *)
Definition proseReply : string :=
  "I could not assess this repository.".

(** The fields [calculateScore] reads. *)
Definition scoredFields (m : MetricsRecord)
  : bool * Z * Z * Z * bool * bool * Z * Z :=
  (has_readme m, readme_length m, total_commits m, recent_commits m,
   has_tests m, has_cicd m, branch_count m, total_prs m).

(** A metrics record with the scored fields given and the others, which
    the scorer does not read, left as parameters. *)
Definition scored (rest : MetricsRecord)
  (v_total_commits v_recent_commits : Z) (v_has_readme : bool)
  (v_readme_length : Z) (v_has_tests v_has_cicd : bool)
  (v_branch_count v_total_prs : Z) : MetricsRecord :=
  {| name := name rest; stars := stars rest; forks := forks rest;
     watchers := watchers rest; open_issues := open_issues rest;
     primary_language := primary_language rest;
     languages := languages rest;
     has_readme := v_has_readme; readme_length := v_readme_length;
     total_commits := v_total_commits; recent_commits := v_recent_commits;
     branch_count := v_branch_count; total_prs := v_total_prs;
     has_tests := v_has_tests; has_cicd := v_has_cicd |}.

(** An empty repository, as a record. *)
Definition emptyMetrics : MetricsRecord :=
  {| name := "empty"; stars := 0; forks := 0; watchers := 0;
     open_issues := 0; primary_language := "Unknown"; languages := [];
     has_readme := false; readme_length := 0; total_commits := 0;
     recent_commits := 0; branch_count := 0; total_prs := 0;
     has_tests := false; has_cicd := false |}.

(** ** Sample clients *)

Definition notFound : JsError := Error "Not Found".

Definition sampleRepo : RepoData :=
  {| repo_name := "hello"; stargazers_count := 3; forks_count := 1;
     watchers_count := 3; open_issues_count := 0; language := None |}.

(** A repository without any commit: the host answers the metadata call
    and refuses the commit list. *)
Definition emptyRepoClient : Octokit :=
  {| repos_get := fun _ _ => Return sampleRepo;
     repos_listLanguages := fun _ _ => Return [];
     repos_getReadme := fun _ _ => Throw notFound;
     repos_listCommits := fun _ _ => Throw (Error "Git Repository is empty.");
     repos_listBranches := fun _ _ => Return [];
     pulls_list := fun _ _ => Return [];
     repos_getContent := fun _ _ _ => Throw notFound |}.

(** A repository with two commits and one branch, no README, and a
    pull-request list that fails. *)
Definition bareRepoClient : Octokit :=
  {| repos_get := fun _ _ => Return sampleRepo;
     repos_listLanguages := fun _ _ => Return [("JavaScript", 2048)];
     repos_getReadme := fun _ _ => Throw notFound;
     repos_listCommits := fun _ _ =>
       Return [ {| author_date := 1700000000000 |};
                {| author_date := 1600000000000 |} ];
     repos_listBranches := fun _ _ => Return ["main"];
     pulls_list := fun _ _ => Throw (Error "Server Error");
     repos_getContent := fun _ _ path =>
       if Js.isEmpty path then Return (Directory ["src"; "package.json"])
       else Throw notFound |}.


(** [returns c]: the evaluation of [c] returns a value, it does not
    throw. *)
Definition returns {A} (c : completion A) : Prop := exists a, c = Return a.

(** * The request boundary: [POST /api/analyze] of [src/backend/server.js] *)

(** The JSON body of a response: [{ success: true, data }] or
    [{ success: false, error }]. *)
Inductive ResponseBody : Type :=
| SuccessBody (data : Analysis.t)
| FailureBody (error : string).

(** The value of [req.body.repo_url] once [express.json()] has parsed
    the body: absent, or any JSON value.  Of a number the handler only
    observes whether it is zero, and of an object nothing at all (no JSON
    value is a function, so no key of it can be called). *)
Local Unset Elimination Schemes.
Inductive BodyValue : Type :=
| Undefined
| Null
| Boolean (b : bool)
| Number (isZero : bool)
| Text (s : string)
| Array (elements : list BodyValue)
| Object.
Local Set Elimination Schemes.

(** Truthiness: what [!repo_url] negates. *)
Definition truthy (v : BodyValue) : bool :=
  match v with
  | Undefined => false
  | Null => false
  | Boolean b => b
  | Number isZero => negb isZero
  | Text s => negb (Js.isEmpty s)
  | Array _ => true
  | Object => true
  end.

(** The element is the string [github.com] itself:
    [Array.prototype.includes] compares whole elements. *)
Definition isHostText (v : BodyValue) : bool :=
  match v with
  | Text s => String.eqb s "github.com"
  | _ => false
  end.

(** [repo_url.includes('github.com')] on a truthy value: the substring
    test of a string, the element test of an array, and a [TypeError] on
    anything else, which has no [includes] to call. *)
Definition includesHost (repo_url : BodyValue) : completion bool :=
  match repo_url with
  | Text url => Return (Js.includes url "github.com")
  | Array elements => Return (existsb isHostText elements)
  | _ => Throw (Error "repo_url.includes is not a function")
  end.

(** A response: the status code ([res.json] alone answers 200) and the
    body. *)
Record Response : Type := {
  status : Z;
  body : ResponseBody
}.

Section Server.

Variable octokit : Octokit.
Variable base64Length : string -> Z.
Variable threeMonthsAgo : Z.
Variable generateContent : string -> completion string.

(** The handler of [app.post('/api/analyze', ...)], on [req.body.repo_url]
    absent or a string.  [!repo_url] holds for an absent and for an empty
    string; [error.message || '...'] replaces an empty message; the
    [console] calls only log. *)
Definition postAnalyze (repo_url : option string) : Response :=
  match repo_url with
  | None =>
      {| status := 400; body := FailureBody "Repository URL is required" |}
  | Some url =>
      if Js.isEmpty url then
        {| status := 400; body := FailureBody "Repository URL is required" |}
      else if negb (Js.includes url "github.com") then
        {| status := 400; body := FailureBody "Invalid GitHub URL" |}
      else
        match analyzeRepository octokit base64Length threeMonthsAgo
                generateContent url with
        | Return result => {| status := 200; body := SuccessBody result |}
        | Throw error =>
            {| status := 500;
               body := FailureBody
                         (if Js.isEmpty (message error)
                          then "Failed to analyze repository"
                          else message error) |}
        end
  end.

(** [analyzer.analyzeRepository(repo_url)] as the handler calls it.  A
    value that is not a string gets this far only as an array; then
    [url.match] in [parseRepoUrl] is not a function, and the [catch] of
    [analyzeRepository] wraps the [TypeError]. *)
Definition analyzeValue (repo_url : BodyValue) : completion Analysis.t :=
  match repo_url with
  | Text url =>
      analyzeRepository octokit base64Length threeMonthsAgo
        generateContent url
  | _ => Throw (Error "Analysis failed: url.match is not a function")
  end.

(** The handler on any value of [req.body.repo_url]: the statements of
    the [try] block in their order, and the [catch] that answers 500. *)
Definition handleAnalyze (repo_url : BodyValue) : Response :=
  match
    (if negb (truthy repo_url) then
       Return {| status := 400;
                 body := FailureBody "Repository URL is required" |}
     else
       hasHost <- includesHost repo_url ;;
       if negb hasHost then
         Return {| status := 400; body := FailureBody "Invalid GitHub URL" |}
       else
         result <- analyzeValue repo_url ;;
         Return {| status := 200; body := SuccessBody result |})%js
  with
  | Return response => response
  | Throw error =>
      {| status := 500;
         body := FailureBody
                   (if Js.isEmpty (message error)
                    then "Failed to analyze repository"
                    else message error) |}
  end.

End Server.

(** ** Names used to state further properties *)

(** The value of [score] when [calculateScore] reaches its last line,
    before [Math.min]. *)
Definition rawScore (metrics : MetricsRecord) : Z :=
  score_prs metrics
    (score_branches metrics
       (score_cicd metrics
          (score_tests metrics
             (score_recent metrics
                (score_commits metrics (score_readme metrics 0)))))).

(** The lowercased name holds [test] or [spec]. *)
Definition mentionsTests (item : string) : bool :=
  Js.includes (Js.toLowerCase item) "test"
  || Js.includes (Js.toLowerCase item) "spec".

(** The code unit [c] does not occur in [s]. *)
Fixpoint charFree (c : ascii) (s : string) : bool :=
  match s with
  | EmptyString => true
  | String d s' => negb (Ascii.eqb d c) && charFree c s'
  end.

(** A reply in the format the prompt asks for: the summary on the
    [SUMMARY:] line, the marker on a line of its own, one bullet per
    item. *)
Definition formattedReply (text : string) (items : list string) : string :=
  "SUMMARY: " +:+ text +:+ Js.nl +:+ "ROADMAP:" +:+ Js.nl
  +:+ Js.join Js.nl (map bullet items).

(** A model that always fails. *)
Definition failingModel : string -> completion string :=
  fun _ => Throw (Error "API key not valid").

(** * Properties of the scorer *)

Section ScorerFacts.

Implicit Types (m metrics : MetricsRecord) (s score : Z).

(** Each statement adds its rule of the table to the running score. *)
Lemma score_readme_rule m s : score_readme m s = s + Rules.readme m.
Proof.
  unfold score_readme, Rules.readme.
  destruct (has_readme m); simpl; [| lia].
  rewrite !Z.gtb_ltb.
  destruct (1000 <? readme_length m); [reflexivity |].
  destruct (500 <? readme_length m); reflexivity.
Qed.

Lemma score_commits_rule m s : score_commits m s = s + Rules.commit_volume m.
Proof.
  unfold score_commits, Rules.commit_volume.
  rewrite !Z.geb_leb.
  repeat match goal with |- context [?a <=? ?b] => destruct (a <=? b) end;
    reflexivity.
Qed.

Lemma score_recent_rule m s : score_recent m s = s + Rules.recent_activity m.
Proof.
  unfold score_recent, Rules.recent_activity.
  rewrite !Z.gtb_ltb.
  repeat match goal with |- context [?a <? ?b] => destruct (a <? b) end;
    lia.
Qed.

Lemma score_tests_rule m s : score_tests m s = s + Rules.tests m.
Proof. unfold score_tests, Rules.tests. destruct (has_tests m); lia. Qed.

Lemma score_cicd_rule m s : score_cicd m s = s + Rules.cicd m.
Proof. unfold score_cicd, Rules.cicd. destruct (has_cicd m); lia. Qed.

Lemma score_branches_rule m s : score_branches m s = s + Rules.branch_usage m.
Proof.
  unfold score_branches, Rules.branch_usage.
  rewrite !Z.gtb_ltb.
  repeat match goal with |- context [?a <? ?b] => destruct (a <? b) end;
    lia.
Qed.

Lemma score_prs_rule m s : score_prs m s = s + Rules.pull_requests m.
Proof.
  unfold score_prs, Rules.pull_requests.
  rewrite !Z.gtb_ltb.
  repeat match goal with |- context [?a <? ?b] => destruct (a <? b) end;
    lia.
Qed.

Lemma calculateScore_total m : calculateScore m = Z.min 100 (Rules.total m).
Proof.
  unfold calculateScore, Rules.total. cbv zeta.
  rewrite score_prs_rule, score_branches_rule, score_cicd_rule,
    score_tests_rule, score_recent_rule, score_commits_rule,
    score_readme_rule.
  f_equal; lia.
Qed.

(** The range of each rule: none is negative, none exceeds its cap. *)
Lemma readme_range m : 0 <= Rules.readme m <= 20.
Proof.
  unfold Rules.readme.
  repeat match goal with |- context [if ?b then _ else _] => destruct b end;
    lia.
Qed.

Lemma commit_volume_lower m : 5 <= Rules.commit_volume m.
Proof.
  unfold Rules.commit_volume.
  repeat match goal with |- context [if ?b then _ else _] => destruct b end;
    lia.
Qed.

Lemma commit_volume_upper m : Rules.commit_volume m <= 25.
Proof.
  unfold Rules.commit_volume.
  destruct (100 <=? total_commits m) eqn:H100; [lia |].
  destruct (50 <=? total_commits m) eqn:H50; [lia |].
  destruct (20 <=? total_commits m) eqn:H20; [lia |].
  apply Z.leb_gt in H20.
  assert (total_commits m / 2 < 10) by (apply Z.div_lt_upper_bound; lia).
  lia.
Qed.

Lemma recent_activity_range m : 0 <= Rules.recent_activity m <= 15.
Proof.
  unfold Rules.recent_activity.
  repeat match goal with |- context [if ?b then _ else _] => destruct b end;
    lia.
Qed.

Lemma tests_range m : 0 <= Rules.tests m <= 20.
Proof. unfold Rules.tests. destruct (has_tests m); lia. Qed.

Lemma cicd_range m : 0 <= Rules.cicd m <= 10.
Proof. unfold Rules.cicd. destruct (has_cicd m); lia. Qed.

Lemma branch_usage_range m : 0 <= Rules.branch_usage m <= 5.
Proof.
  unfold Rules.branch_usage.
  repeat match goal with |- context [if ?b then _ else _] => destruct b end;
    lia.
Qed.

Lemma pull_requests_range m : 0 <= Rules.pull_requests m <= 5.
Proof.
  unfold Rules.pull_requests.
  repeat match goal with |- context [if ?b then _ else _] => destruct b end;
    lia.
Qed.

Lemma total_range m : 5 <= Rules.total m <= 100.
Proof.
  unfold Rules.total.
  pose proof (readme_range m). pose proof (commit_volume_lower m).
  pose proof (commit_volume_upper m). pose proof (recent_activity_range m).
  pose proof (tests_range m). pose proof (cicd_range m).
  pose proof (branch_usage_range m). pose proof (pull_requests_range m).
  lia.
Qed.

End ScorerFacts.

(** * The scorer against its specification *)

(** C1: the scorer is a total function of the metrics record; for every
    record its result lies between 0 and 100, equals the sum of the seven
    dimension rules of the table clamped by a final minimum with 100, and
    is the same for identical records (indeed for any two records that
    agree on the eight scored fields). *)
Theorem calculateScore_bounded_sum_deterministic (m : MetricsRecord) :
  0 <= calculateScore m <= 100
  /\ calculateScore m =
       Z.min 100
         (Rules.readme m + Rules.commit_volume m + Rules.recent_activity m
          + Rules.tests m + Rules.cicd m + Rules.branch_usage m
          + Rules.pull_requests m)
  /\ (forall m' : MetricsRecord, m' = m -> calculateScore m' = calculateScore m)
  /\ (forall m' : MetricsRecord,
        scoredFields m' = scoredFields m ->
        calculateScore m' = calculateScore m).
Proof.
  pose proof (total_range m) as Hrange.
  pose proof (calculateScore_total m) as Htotal.
  repeat split.
  - rewrite Htotal. lia.
  - rewrite Htotal. lia.
  - exact Htotal.
  - intros m' ->. reflexivity.
  - intros m' Hfields. unfold scoredFields in Hfields.
    injection Hfields as Hr Hl Hc Hrc Ht Hci Hb Hp.
    rewrite !calculateScore_total.
    unfold Rules.total, Rules.readme, Rules.commit_volume,
      Rules.recent_activity, Rules.tests, Rules.cicd, Rules.branch_usage,
      Rules.pull_requests.
    rewrite Hr, Hl, Hc, Hrc, Ht, Hci, Hb, Hp. reflexivity.
Qed.

(** C4: boundary cases of the scorer.  With no commit the commit
    statement adds exactly 5 to the score [calculateScore] returns, and
    not 0; with a README of exactly 1000 bytes the README statement adds
    15, the second branch, and not 20, which it adds from 1001 bytes on;
    with one branch the branch statement adds nothing, and not the 3 it
    adds from two branches on.  Each is stated on the score itself, for
    any values of the other fields, and on the record that has nothing
    else. *)
Theorem calculateScore_boundaries (m1 m2 m3 rest : MetricsRecord) (s : Z) :
  total_commits m1 = 0 ->
  has_readme m2 = true -> readme_length m2 = 1000 ->
  branch_count m3 = 1 ->
  (calculateScore m1
   = Rules.readme m1 + 5 + Rules.recent_activity m1 + Rules.tests m1
     + Rules.cicd m1 + Rules.branch_usage m1 + Rules.pull_requests m1
   /\ score_commits m1 s = s + 5
   /\ Rules.commit_volume m1 = Z.max 5 (0 / 2)
   /\ Rules.commit_volume m1 = 5)
  /\ (calculateScore m2
      = 15 + Rules.commit_volume m2 + Rules.recent_activity m2
        + Rules.tests m2 + Rules.cicd m2 + Rules.branch_usage m2
        + Rules.pull_requests m2
      /\ score_readme m2 s = s + 15 /\ Rules.readme m2 = 15)
  /\ (calculateScore m3
      = Rules.readme m3 + Rules.commit_volume m3
        + Rules.recent_activity m3 + Rules.tests m3 + Rules.cicd m3 + 0
        + Rules.pull_requests m3
      /\ score_branches m3 s = s /\ Rules.branch_usage m3 = 0)
  /\ calculateScore (scored rest 0 0 false 0 false false 0 0) = 5
  /\ calculateScore (scored rest 0 0 true 1000 false false 0 0) = 5 + 15
  /\ calculateScore (scored rest 0 0 true 1001 false false 0 0) = 5 + 20
  /\ calculateScore (scored rest 0 0 false 0 false false 1 0) = 5 + 0
  /\ calculateScore (scored rest 0 0 false 0 false false 2 0) = 5 + 3.
Proof.
  intros Hc Hr Hl Hb.
  assert (Hsum : forall m, calculateScore m = Rules.total m).
  { intros m. rewrite calculateScore_total.
    pose proof (total_range m). lia. }
  rewrite !Hsum.
  rewrite score_commits_rule, score_readme_rule, score_branches_rule.
  unfold Rules.total.
  assert (Hcv : Rules.commit_volume m1 = 5)
    by (unfold Rules.commit_volume; rewrite Hc; reflexivity).
  assert (Hrd : Rules.readme m2 = 15)
    by (unfold Rules.readme; rewrite Hr, Hl; reflexivity).
  assert (Hbu : Rules.branch_usage m3 = 0)
    by (unfold Rules.branch_usage; rewrite Hb; reflexivity).
  rewrite Hcv, Hrd, Hbu.
  repeat split; try lia; reflexivity.
Qed.

(** The three boundaries on sample records. *)
Lemma calculateScore_boundaries_witness :
  (calculateScore emptyMetrics
   = Rules.readme emptyMetrics + 5 + Rules.recent_activity emptyMetrics
     + Rules.tests emptyMetrics + Rules.cicd emptyMetrics
     + Rules.branch_usage emptyMetrics + Rules.pull_requests emptyMetrics
   /\ score_commits emptyMetrics 0 = 0 + 5
   /\ Rules.commit_volume emptyMetrics = Z.max 5 (0 / 2)
   /\ Rules.commit_volume emptyMetrics = 5)
  /\ (calculateScore (scored emptyMetrics 0 0 true 1000 false false 0 0)
      = 15
        + Rules.commit_volume
            (scored emptyMetrics 0 0 true 1000 false false 0 0)
        + Rules.recent_activity
            (scored emptyMetrics 0 0 true 1000 false false 0 0)
        + Rules.tests (scored emptyMetrics 0 0 true 1000 false false 0 0)
        + Rules.cicd (scored emptyMetrics 0 0 true 1000 false false 0 0)
        + Rules.branch_usage
            (scored emptyMetrics 0 0 true 1000 false false 0 0)
        + Rules.pull_requests
            (scored emptyMetrics 0 0 true 1000 false false 0 0)
      /\ score_readme (scored emptyMetrics 0 0 true 1000 false false 0 0) 0
         = 0 + 15
      /\ Rules.readme (scored emptyMetrics 0 0 true 1000 false false 0 0)
         = 15)
  /\ (calculateScore (scored emptyMetrics 0 0 false 0 false false 1 0)
      = Rules.readme (scored emptyMetrics 0 0 false 0 false false 1 0)
        + Rules.commit_volume
            (scored emptyMetrics 0 0 false 0 false false 1 0)
        + Rules.recent_activity
            (scored emptyMetrics 0 0 false 0 false false 1 0)
        + Rules.tests (scored emptyMetrics 0 0 false 0 false false 1 0)
        + Rules.cicd (scored emptyMetrics 0 0 false 0 false false 1 0)
        + 0
        + Rules.pull_requests
            (scored emptyMetrics 0 0 false 0 false false 1 0)
      /\ score_branches (scored emptyMetrics 0 0 false 0 false false 1 0) 0
         = 0
      /\ Rules.branch_usage
           (scored emptyMetrics 0 0 false 0 false false 1 0) = 0)
  /\ calculateScore (scored emptyMetrics 0 0 false 0 false false 0 0) = 5
  /\ calculateScore (scored emptyMetrics 0 0 true 1000 false false 0 0)
     = 5 + 15
  /\ calculateScore (scored emptyMetrics 0 0 true 1001 false false 0 0)
     = 5 + 20
  /\ calculateScore (scored emptyMetrics 0 0 false 0 false false 1 0)
     = 5 + 0
  /\ calculateScore (scored emptyMetrics 0 0 false 0 false false 2 0)
     = 5 + 3.
Proof.
  apply (calculateScore_boundaries emptyMetrics
           (scored emptyMetrics 0 0 true 1000 false false 0 0)
           (scored emptyMetrics 0 0 false 0 false false 1 0)
           emptyMetrics 0);
    reflexivity.
Defined.

(** C8: the two end-to-end scenarios.  120 commits, 25 of them recent, a
    README of 1500 bytes, tests, CI/CD, 5 branches and 15 pull requests
    score 20+25+15+20+10+5+5 = 100, rule by rule in the order README,
    commits, recent activity, tests, CI/CD, branches, pull requests; a
    record with every count at 0 and every flag false scores
    0+5+0+0+0+0+0 = 5.  The fields the scorer does not read are
    arbitrary. *)
Theorem calculateScore_scenarios (rest : MetricsRecord) :
  let full := scored rest 120 25 true 1500 true true 5 15 in
  let none := scored rest 0 0 false 0 false false 0 0 in
  calculateScore full = 20 + 25 + 15 + 20 + 10 + 5 + 5
  /\ calculateScore full = 100
  /\ [ Rules.readme full; Rules.commit_volume full;
       Rules.recent_activity full; Rules.tests full; Rules.cicd full;
       Rules.branch_usage full; Rules.pull_requests full ]
     = [20; 25; 15; 20; 10; 5; 5]
  /\ calculateScore none = 0 + 5 + 0 + 0 + 0 + 0 + 0
  /\ calculateScore none = 5
  /\ [ Rules.readme none; Rules.commit_volume none;
       Rules.recent_activity none; Rules.tests none; Rules.cicd none;
       Rules.branch_usage none; Rules.pull_requests none ]
     = [0; 5; 0; 0; 0; 0; 0].
Proof. repeat split; reflexivity. Qed.

(** C10: the score is never below 5.  The commit statement adds at least
    5 to the running score, and at least 15 once there are 20 commits or
    more; below 20 commits it adds the larger of 5 and half the count.
    So no record scores 0, 1, 2, 3 or 4. *)
Theorem calculateScore_at_least_5 (m : MetricsRecord) :
  5 <= calculateScore m
  /\ (forall s : Z,
        s + (if total_commits m <? 20 then 5 else 15) <= score_commits m s)
  /\ (forall s : Z,
        if total_commits m <? 20
        then score_commits m s = s + Z.max 5 (total_commits m / 2)
        else True)
  /\ ~ In (calculateScore m) [0; 1; 2; 3; 4].
Proof.
  pose proof (total_range m) as Hrange.
  pose proof (calculateScore_total m) as Htotal.
  assert (H5 : 5 <= calculateScore m) by (rewrite Htotal; lia).
  repeat split.
  - exact H5.
  - intros s. rewrite score_commits_rule. unfold Rules.commit_volume.
    destruct (total_commits m <? 20) eqn:H20;
      [apply Z.ltb_lt in H20 | apply Z.ltb_ge in H20];
      repeat match goal with
        |- context [?a <=? ?b] => destruct (Z.leb_spec a b)
        end; lia.
  - intros s. destruct (total_commits m <? 20) eqn:H20; [| exact I].
    apply Z.ltb_lt in H20. unfold score_commits.
    rewrite !Z.geb_leb.
    repeat match goal with
      |- context [?a <=? ?b] => destruct (Z.leb_spec a b)
      end; lia.
  - simpl. lia.
Qed.

(** * Properties of the fetcher *)

Section FetcherFacts.

Variable octokit : Octokit.
Variable base64Length : string -> Z.
Variable threeMonthsAgo : Z.
Implicit Types (owner repo : string) (m : gmap string JsValue).

Lemma returns_Return {A} (a : A) : returns (Return a).
Proof. exists a. reflexivity. Qed.

Lemma returns_Throw {A} (e : JsError) : ~ returns (@Throw A e).
Proof. intros [a Ha]. discriminate. Qed.

(** The probes never throw: a failed listing is no test directory, and a
    failed probe goes on to the next path. *)
Lemma checkForTests_failure owner repo e :
  repos_getContent octokit owner repo EmptyString = Throw e ->
  checkForTests octokit owner repo = false.
Proof. intros H. unfold checkForTests. rewrite H. reflexivity. Qed.

Lemma probePaths_all_fail owner repo paths :
  (forall path, In path paths ->
     exists e, repos_getContent octokit owner repo path = Throw e) ->
  probePaths octokit owner repo paths = false.
Proof.
  induction paths as [| path rest IH]; intros Hall; [reflexivity |].
  simpl. destruct (Hall path) as [e He]; [left; reflexivity |].
  rewrite He. apply IH. intros p Hp. apply Hall. right. exact Hp.
Qed.

Lemma probePaths_true owner repo paths :
  probePaths octokit owner repo paths = true <->
  exists path, In path paths
               /\ returns (repos_getContent octokit owner repo path).
Proof.
  induction paths as [| path rest IH]; simpl.
  - split; [discriminate | intros (p & [] & _)].
  - destruct (repos_getContent octokit owner repo path) as [c | e] eqn:Hc.
    + split; [intros _ | reflexivity].
      exists path. split; [left; reflexivity |].
      rewrite Hc. apply returns_Return.
    + rewrite IH. split.
      * intros (p & Hp & Hr). exists p. split; [right; exact Hp | exact Hr].
      * intros (p & [<- | Hp] & Hr).
        -- rewrite Hc in Hr. destruct (returns_Throw _ Hr).
        -- exists p. split; assumption.
Qed.

(** The success path in full: when the four unguarded calls return, the
    fetch returns an object with exactly the fifteen keys, which reads
    as the record below. *)
Lemma fetchMetrics_success owner repo repoData langs commits branches :
  repos_get octokit owner repo = Return repoData ->
  repos_listLanguages octokit owner repo = Return langs ->
  repos_listCommits octokit owner repo = Return commits ->
  repos_listBranches octokit owner repo = Return branches ->
  exists m,
    fetchMetrics octokit base64Length threeMonthsAgo owner repo = Return m
    /\ dom m = metricsKeys
    /\ asRecord m = Some
         {| name := repo_name repoData;
            stars := stargazers_count repoData;
            forks := forks_count repoData;
            watchers := watchers_count repoData;
            open_issues := open_issues_count repoData;
            primary_language := languageOrUnknown (language repoData);
            languages := map fst langs;
            has_readme :=
              match repos_getReadme octokit owner repo with
              | Return _ => true | Throw _ => false end;
            readme_length :=
              match repos_getReadme octokit owner repo with
              | Return readme => base64Length readme | Throw _ => 0 end;
            total_commits := Z.of_nat (length commits);
            recent_commits :=
              Z.of_nat (length
                (List.filter
                   (fun commit => author_date commit >? threeMonthsAgo)
                   commits));
            branch_count := Z.of_nat (length branches);
            total_prs :=
              match pulls_list octokit owner repo with
              | Return prs => Z.of_nat (length prs) | Throw _ => 0 end;
            has_tests := checkForTests octokit owner repo;
            has_cicd := checkForCICD octokit owner repo |}.
Proof.
  intros Hget Hlangs Hcommits Hbranches.
  unfold fetchMetrics, try_catch, bind.
  rewrite Hget, Hlangs, Hcommits, Hbranches.
  eexists. split; [reflexivity |].
  destruct (repos_getReadme octokit owner repo),
    (pulls_list octokit owner repo).
  all: split;
    [rewrite !dom_insert_L, dom_empty_L; unfold metricsKeys; set_solver |].
  all: reflexivity.
Qed.

(** A returning fetch means the four unguarded calls returned. *)
Lemma fetchMetrics_Return_inv owner repo m :
  fetchMetrics octokit base64Length threeMonthsAgo owner repo = Return m ->
  exists repoData langs commits branches,
    repos_get octokit owner repo = Return repoData
    /\ repos_listLanguages octokit owner repo = Return langs
    /\ repos_listCommits octokit owner repo = Return commits
    /\ repos_listBranches octokit owner repo = Return branches.
Proof.
  unfold fetchMetrics, try_catch, bind.
  destruct (repos_get octokit owner repo) as [repoData | e0];
    [| discriminate].
  destruct (repos_listLanguages octokit owner repo) as [langs | e1];
    [| discriminate].
  destruct (repos_listCommits octokit owner repo) as [commits | e2];
    [| discriminate].
  destruct (repos_listBranches octokit owner repo) as [branches | e3];
    [| discriminate].
  intros _. exists repoData, langs, commits, branches. auto.
Qed.

(** A throwing fetch rethrows, under its prefix, the error of one of the
    four unguarded calls. *)
Lemma fetchMetrics_Throw_inv owner repo e :
  fetchMetrics octokit base64Length threeMonthsAgo owner repo = Throw e ->
  exists e0,
    e = Error ("Failed to fetch metrics: " +:+ message e0)
    /\ (repos_get octokit owner repo = Throw e0
        \/ repos_listLanguages octokit owner repo = Throw e0
        \/ repos_listCommits octokit owner repo = Throw e0
        \/ repos_listBranches octokit owner repo = Throw e0).
Proof.
  unfold fetchMetrics, try_catch, bind.
  destruct (repos_get octokit owner repo) as [repoData | e0];
    [| intros [= <-]; exists e0; auto].
  destruct (repos_listLanguages octokit owner repo) as [langs | e1];
    [| intros [= <-]; exists e1; auto].
  destruct (repos_listCommits octokit owner repo) as [commits | e2];
    [| intros [= <-]; exists e2; auto].
  destruct (repos_listBranches octokit owner repo) as [branches | e3];
    [| intros [= <-]; exists e3; auto 6].
  discriminate.
Qed.

Lemma fetchMetrics_typed owner repo m :
  fetchMetrics octokit base64Length threeMonthsAgo owner repo = Return m ->
  dom m = metricsKeys /\ is_Some (asRecord m).
Proof.
  intros Hm.
  destruct (fetchMetrics_Return_inv _ _ _ Hm)
    as (repoData & langs & commits & branches & Hg & Hl & Hc & Hb).
  destruct (fetchMetrics_success _ _ _ _ _ _ Hg Hl Hc Hb)
    as (m' & Hm' & Hdom & Hrec).
  rewrite Hm in Hm'. injection Hm' as <-.
  split; [exact Hdom | rewrite Hrec; eexists; reflexivity].
Qed.

End FetcherFacts.

(** * The fetcher against its specification *)

(** C2, as stated, fails: the metadata call is not the only fatal one.
    On a repository without commits the metadata call returns, the
    commit list throws, nothing guards it, and the whole fetch throws. *)
Lemma fetchMetrics_commit_list_failure_is_fatal :
  returns (repos_get emptyRepoClient "octocat" "empty")
  /\ fetchMetrics emptyRepoClient (fun _ => 0) 0 "octocat" "empty"
     = Throw (Error "Failed to fetch metrics: Git Repository is empty.")
  /\ ~ (forall (octokit : Octokit) (base64Length : string -> Z)
          (threeMonthsAgo : Z) (owner repo : string),
          returns (repos_get octokit owner repo) ->
          returns
            (fetchMetrics octokit base64Length threeMonthsAgo owner repo)).
Proof.
  split; [apply returns_Return |].
  split; [reflexivity |].
  intros Hall.
  destruct (Hall emptyRepoClient (fun _ => 0) 0 "octocat" "empty")
    as [m Hm]; [apply returns_Return | discriminate Hm].
Qed.

(** C2, amended: four calls are fatal, namely the repository metadata,
    the languages, the commit list and the branch list; the fetch returns
    exactly when all four return, and otherwise throws the error of one
    of them under the prefix of the fetcher.  The README, the
    pull-request list, the test probe and the CI probes never make it
    throw: their failures are defaulted to false or 0, and a missing
    primary language reads Unknown.  A returned object has exactly the
    fifteen keys, each with a value of its documented type. *)
Theorem fetchMetrics_fatal_calls_and_defaults
  (octokit : Octokit) (base64Length : string -> Z) (threeMonthsAgo : Z)
  (owner repo : string) :
  (returns (fetchMetrics octokit base64Length threeMonthsAgo owner repo)
   <-> returns (repos_get octokit owner repo)
       /\ returns (repos_listLanguages octokit owner repo)
       /\ returns (repos_listCommits octokit owner repo)
       /\ returns (repos_listBranches octokit owner repo))
  /\ (forall e : JsError,
        fetchMetrics octokit base64Length threeMonthsAgo owner repo
          = Throw e ->
        exists e0 : JsError,
          e = Error ("Failed to fetch metrics: " +:+ message e0)
          /\ (repos_get octokit owner repo = Throw e0
              \/ repos_listLanguages octokit owner repo = Throw e0
              \/ repos_listCommits octokit owner repo = Throw e0
              \/ repos_listBranches octokit owner repo = Throw e0))
  /\ (forall m : gmap string JsValue,
        fetchMetrics octokit base64Length threeMonthsAgo owner repo
          = Return m ->
        dom m = metricsKeys
        /\ exists r : MetricsRecord,
             asRecord m = Some r
             /\ (forall e, repos_getReadme octokit owner repo = Throw e ->
                   has_readme r = false /\ readme_length r = 0)
             /\ (forall e, pulls_list octokit owner repo = Throw e ->
                   total_prs r = 0)
             /\ (forall e,
                   repos_getContent octokit owner repo EmptyString
                     = Throw e ->
                   has_tests r = false)
             /\ ((forall path, In path cicdPaths ->
                    exists e,
                      repos_getContent octokit owner repo path = Throw e) ->
                 has_cicd r = false)
             /\ (forall repoData,
                   repos_get octokit owner repo = Return repoData ->
                   language repoData = None ->
                   primary_language r = "Unknown")).
Proof.
  split; [| split].
  - split.
    + intros [m Hm].
      destruct (fetchMetrics_Return_inv _ _ _ _ _ _ Hm)
        as (repoData & langs & commits & branches & Hg & Hl & Hc & Hb).
      rewrite Hg, Hl, Hc, Hb. repeat split; apply returns_Return.
    + intros ([repoData Hg] & [langs Hl] & [commits Hc] & [branches Hb]).
      destruct (fetchMetrics_success octokit base64Length threeMonthsAgo
                  _ _ _ _ _ _ Hg Hl Hc Hb) as (m & Hm & _).
      exists m. exact Hm.
  - intros e. apply fetchMetrics_Throw_inv.
  - intros m Hm.
    destruct (fetchMetrics_Return_inv _ _ _ _ _ _ Hm)
      as (repoData & langs & commits & branches & Hg & Hl & Hc & Hb).
    destruct (fetchMetrics_success octokit base64Length threeMonthsAgo
                _ _ _ _ _ _ Hg Hl Hc Hb) as (m' & Hm' & Hdom & Hrec).
    rewrite Hm in Hm'. injection Hm' as <-.
    split; [exact Hdom |].
    eexists. split; [exact Hrec |]. simpl.
    split; [intros e He; rewrite He; split; reflexivity |].
    split; [intros e He; rewrite He; reflexivity |].
    split; [intros e He; exact (checkForTests_failure _ _ _ _ He) |].
    split; [intros Hall; exact (probePaths_all_fail octokit owner repo cicdPaths Hall) |].
    intros rd Hrd Hnone. rewrite Hg in Hrd. injection Hrd as <-.
    rewrite Hnone. reflexivity.
Qed.




(** * Properties of the string methods *)

Section StringFacts.

Implicit Types (s p pat sep before after : string) (c : ascii).

Lemma append_nil s : EmptyString +:+ s = s.
Proof. reflexivity. Qed.

Lemma append_cons c s1 s2 : String c s1 +:+ s2 = String c (s1 +:+ s2).
Proof. reflexivity. Qed.

Lemma append_empty_r s : s +:+ EmptyString = s.
Proof.
  induction s as [| c s IH]; [reflexivity |].
  rewrite append_cons, IH. reflexivity.
Qed.

Lemma append_assoc s1 s2 s3 : (s1 +:+ s2) +:+ s3 = s1 +:+ (s2 +:+ s3).
Proof.
  induction s1 as [| c s1 IH]; [reflexivity |].
  rewrite !append_cons, IH. reflexivity.
Qed.

Lemma length_append s1 s2 :
  String.length (s1 +:+ s2) = (String.length s1 + String.length s2)%nat.
Proof.
  induction s1 as [| c s1 IH]; [reflexivity |].
  rewrite append_cons. simpl. rewrite IH. reflexivity.
Qed.

Lemma stripPrefix_Some p s r : Js.stripPrefix p s = Some r <-> s = p +:+ r.
Proof.
  revert s. induction p as [| a p IH]; intros s; simpl.
  - split; [intros [= ->] | intros ->]; reflexivity.
  - destruct s as [| b s]; [split; discriminate |].
    destruct (Ascii.eqb_spec a b) as [-> | Hne].
    + rewrite IH. split; [intros -> | intros [= ->]]; reflexivity.
    + split; [discriminate | intros [= Hab _]; congruence].
Qed.

Lemma stripPrefix_app p r : Js.stripPrefix p (p +:+ r) = Some r.
Proof. apply stripPrefix_Some. reflexivity. Qed.

(** [findFirst] cuts the text around an occurrence of the pattern. *)
Lemma findFirst_Some pat s before after :
  Js.findFirst pat s = Some (before, after) ->
  s = before +:+ pat +:+ after.
Proof.
  revert before. induction s as [| c s IH]; intros before; simpl.
  - destruct (Js.stripPrefix pat EmptyString) as [r |] eqn:Hp;
      [| discriminate].
    intros [= <- <-]. apply stripPrefix_Some in Hp. exact Hp.
  - destruct (Js.stripPrefix pat (String c s)) as [r |] eqn:Hp.
    + intros [= <- <-]. apply stripPrefix_Some in Hp. exact Hp.
    + destruct (Js.findFirst pat s) as [[b a] |]; [| discriminate].
      intros [= <- <-]. rewrite append_cons. f_equal. apply IH. reflexivity.
Qed.

Lemma findFirst_shorter c pat s before after :
  Js.findFirst (String c pat) s = Some (before, after) ->
  (String.length after < String.length s)%nat.
Proof.
  intros H. apply findFirst_Some in H. subst s.
  rewrite !length_append. simpl String.length. lia.
Qed.

Lemma findFirst_empty c pat :
  Js.findFirst (String c pat) EmptyString = None.
Proof. reflexivity. Qed.

Lemma splitN_S n sep s :
  Js.splitN (S n) sep s =
  match Js.findFirst sep s with
  | Some (before, after) => before :: Js.splitN n sep after
  | None => [s]
  end.
Proof. reflexivity. Qed.

(** The bound of [splitN] is never reached: any bound from the length
    of the text on gives the same pieces. *)
Lemma splitN_enough c pat n k s :
  (String.length s <= n)%nat -> (String.length s <= k)%nat ->
  Js.splitN n (String c pat) s = Js.splitN k (String c pat) s.
Proof.
  revert k s. induction n as [| n IH]; intros k s Hn Hk.
  - destruct s; [| simpl in Hn; lia].
    destruct k; reflexivity.
  - destruct k as [| k].
    + destruct s; [reflexivity | simpl in Hk; lia].
    + rewrite !splitN_S.
      destruct (Js.findFirst (String c pat) s) as [[b a] |] eqn:Hf;
        [| reflexivity].
      apply findFirst_shorter in Hf.
      f_equal. apply IH; lia.
Qed.

(** The equation of [split]: cut at the first separator, go on after
    it. *)
Lemma split_unfold c pat s :
  Js.split s (String c pat) =
  match Js.findFirst (String c pat) s with
  | Some (before, after) => before :: Js.split after (String c pat)
  | None => [s]
  end.
Proof.
  unfold Js.split. destruct s as [| d s]; [reflexivity |].
  simpl String.length. rewrite splitN_S.
  destruct (Js.findFirst (String c pat) (String d s)) as [[b a] |] eqn:Hf;
    [| reflexivity].
  apply findFirst_shorter in Hf. simpl in Hf.
  f_equal. apply splitN_enough; lia.
Qed.

Lemma split_without_separator c pat s :
  Js.findFirst (String c pat) s = None -> Js.split s (String c pat) = [s].
Proof. intros H. rewrite split_unfold, H. reflexivity. Qed.

(** [split] always has a first piece: the text before the first
    separator. *)
Lemma split_first c pat s :
  Js.split s (String c pat) !! 0%nat =
  Some (match Js.findFirst (String c pat) s with
        | Some (before, _) => before
        | None => s
        end).
Proof.
  rewrite split_unfold.
  destruct (Js.findFirst (String c pat) s) as [[b a] |]; reflexivity.
Qed.

(** The second piece, when there is a separator, is the text between the
    first separator and the next. *)
Lemma split_second c pat s :
  Js.split s (String c pat) !! 1%nat =
  match Js.findFirst (String c pat) s with
  | Some (_, after) =>
      Some (match Js.findFirst (String c pat) after with
            | Some (between, _) => between
            | None => after
            end)
  | None => None
  end.
Proof.
  rewrite split_unfold.
  destruct (Js.findFirst (String c pat) s) as [[b a] |]; [| reflexivity].
  simpl. apply split_first.
Qed.

End StringFacts.

Section LineFacts.

Implicit Types (s p line : string) (c : ascii) (ls : list string).

Lemma findFirst_nl_cons c s :
  Js.findFirst Js.nl (String c s) =
  if Ascii.eqb c Js.LF then Some (EmptyString, s)
  else match Js.findFirst Js.nl s with
       | Some (before, after) => Some (String c before, after)
       | None => None
       end.
Proof.
  change (Js.findFirst Js.nl (String c s)) with
    (match (if Ascii.eqb Js.LF c then Some s else None) with
     | Some rest => Some (EmptyString, rest)
     | None =>
         match Js.findFirst Js.nl s with
         | Some (before, after) => Some (String c before, after)
         | None => None
         end
     end).
  rewrite (Ascii.eqb_sym Js.LF c).
  destruct (Ascii.eqb c Js.LF); reflexivity.
Qed.

Lemma linesOf_cons c s :
  linesOf (String c s) =
  if Ascii.eqb c Js.LF then EmptyString :: linesOf s
  else prepend (String c EmptyString) (linesOf s).
Proof.
  simpl. destruct (Ascii.eqb c Js.LF); [reflexivity |].
  destruct (linesOf s); reflexivity.
Qed.

(** [split] at line feeds is [linesOf]. *)
Lemma split_lines s : Js.split s Js.nl = linesOf s.
Proof.
  induction s as [| c s IH]; [reflexivity |].
  unfold Js.nl in *. rewrite split_unfold. fold Js.nl.
  rewrite findFirst_nl_cons, linesOf_cons.
  destruct (Ascii.eqb c Js.LF).
  - unfold Js.nl. rewrite IH. reflexivity.
  - rewrite <- IH. unfold Js.nl. rewrite (split_unfold _ _ s).
    destruct (Js.findFirst (String Js.LF EmptyString) s) as [[b a] |];
      reflexivity.
Qed.

Lemma linesOf_nonempty s : exists h t, linesOf s = h :: t.
Proof.
  destruct s as [| c s]; [eexists _, _; reflexivity |].
  rewrite linesOf_cons. destruct (Ascii.eqb c Js.LF).
  - eexists _, _. reflexivity.
  - destruct (linesOf s); eexists _, _; reflexivity.
Qed.

Lemma prepend_prepend p1 p2 ls :
  ls <> [] -> prepend p1 (prepend p2 ls) = prepend (p1 +:+ p2) ls.
Proof.
  destruct ls as [| h t]; [congruence |]. intros _. simpl.
  rewrite append_assoc. reflexivity.
Qed.

(** ** Trimming *)

Lemma trimStart_head s c r :
  Js.trimStart s = String c r -> Js.isWhiteSpace c = false.
Proof.
  induction s as [| d s IH]; simpl; [discriminate |].
  destruct (Js.isWhiteSpace d) eqn:Hd; [exact IH |].
  intros [= <- _]. exact Hd.
Qed.

Lemma trimStart_app p s :
  Js.trimStart (p +:+ s) =
  if Js.isEmpty (Js.trimStart p) then Js.trimStart s
  else Js.trimStart p +:+ s.
Proof.
  induction p as [| c p IH]; [reflexivity |].
  rewrite append_cons. simpl.
  destruct (Js.isWhiteSpace c); [exact IH | reflexivity].
Qed.

Lemma trimStart_idempotent s : Js.trimStart (Js.trimStart s) = Js.trimStart s.
Proof.
  induction s as [| c s IH]; [reflexivity |]. simpl.
  destruct (Js.isWhiteSpace c) eqn:Hc; [exact IH |].
  simpl. rewrite Hc. reflexivity.
Qed.

(** What [trimEnd] removes is a suffix. *)
Lemma trimEnd_prefix s : exists x, s = Js.trimEnd s +:+ x.
Proof.
  induction s as [| c s [x IH]]; [exists EmptyString; reflexivity |].
  simpl. destruct (Js.isWhiteSpace c && Js.isEmpty (Js.trimEnd s)).
  - exists (String c s). reflexivity.
  - exists x. rewrite append_cons. f_equal. exact IH.
Qed.

Lemma startsWith_hyphen_cons c r :
  Js.startsWith (String c r) "-" = Ascii.eqb c "-".
Proof.
  rewrite (Ascii.eqb_sym c).
  change (Js.startsWith (String c r) "-") with
    (match (if Ascii.eqb "-" c then Some r else None) with
     | Some _ => true
     | None => false
     end).
  destruct (Ascii.eqb "-" c); reflexivity.
Qed.

Lemma trimEnd_cons c s :
  Js.trimEnd (String c s) =
  if Js.isWhiteSpace c && Js.isEmpty (Js.trimEnd s) then EmptyString
  else String c (Js.trimEnd s).
Proof. reflexivity. Qed.

Lemma trimStart_cons c s :
  Js.trimStart (String c s) =
  if Js.isWhiteSpace c then Js.trimStart s else String c s.
Proof. reflexivity. Qed.

(** The first character of a trimmed line is the first character that is
    not whitespace: trimming the end does not change the test. *)
Lemma hyphenBulleted_trimStart line :
  hyphenBulleted line = Js.startsWith (Js.trimStart line) "-".
Proof.
  unfold hyphenBulleted, Js.trim.
  destruct (Js.trimStart line) as [| c r] eqn:Ht; [reflexivity |].
  apply trimStart_head in Ht. rewrite trimEnd_cons, Ht.
  change (false && Js.isEmpty (Js.trimEnd r)) with false. cbv iota.
  rewrite !startsWith_hyphen_cons. reflexivity.
Qed.

Lemma hyphen_not_whitespace c :
  Ascii.eqb c "-" = true -> Js.isWhiteSpace c = false.
Proof. intros H. apply Ascii.eqb_eq in H. subst c. reflexivity. Qed.

(** ** The one-pass test agrees with the lines *)

Lemma noBulletFrom_lines s : forall p,
  hyphenBulleted p = false ->
  forallb (fun line => negb (hyphenBulleted line)) (prepend p (linesOf s))
  = noBulletFrom (Js.isEmpty (Js.trimStart p)) s.
Proof.
  induction s as [| c s IH]; intros p Hp.
  - simpl. rewrite append_empty_r, Hp. reflexivity.
  - rewrite linesOf_cons. simpl noBulletFrom.
    destruct (Ascii.eqb c Js.LF) eqn:Hlf.
    + simpl. rewrite append_empty_r, Hp. simpl.
      specialize (IH EmptyString eq_refl).
      destruct (linesOf_nonempty s) as (h & t & Hl).
      rewrite Hl in *. exact IH.
    + destruct (linesOf_nonempty s) as (h & t & Hl).
      rewrite prepend_prepend by (rewrite Hl; discriminate).
      assert (Hstart : Js.trimStart (p +:+ String c EmptyString) =
                if Js.isEmpty (Js.trimStart p)
                then (if Js.isWhiteSpace c then EmptyString
                      else String c EmptyString)
                else Js.trimStart p +:+ String c EmptyString).
      { rewrite trimStart_app. simpl.
        destruct (Js.isWhiteSpace c); reflexivity. }
      destruct (Js.isEmpty (Js.trimStart p)) eqn:Hlead.
      * destruct (Ascii.eqb c "-") eqn:Hdash.
        -- rewrite Hl. simpl.
           assert (Hb : hyphenBulleted
                          ((p +:+ String c EmptyString) +:+ h) = true).
           { rewrite hyphenBulleted_trimStart, trimStart_app, Hstart.
             rewrite (hyphen_not_whitespace _ Hdash).
             change (Js.isEmpty (String c EmptyString)) with false.
             cbv iota. rewrite !append_cons, startsWith_hyphen_cons.
             exact Hdash. }
           rewrite Hb. reflexivity.
        -- rewrite IH.
           ++ rewrite Hstart. destruct (Js.isWhiteSpace c); reflexivity.
           ++ rewrite hyphenBulleted_trimStart, Hstart.
              destruct (Js.isWhiteSpace c); [reflexivity |].
              rewrite startsWith_hyphen_cons. exact Hdash.
      * assert (Hne : exists d r, Js.trimStart p = String d r).
        { destruct (Js.trimStart p) as [| d r]; [discriminate |].
          eexists _, _. reflexivity. }
        destruct Hne as (d & r & Hdr).
        rewrite IH.
        -- rewrite Hstart, Hdr. reflexivity.
        -- rewrite hyphenBulleted_trimStart, Hstart.
           rewrite hyphenBulleted_trimStart in Hp.
           rewrite Hdr in *. rewrite append_cons.
           rewrite startsWith_hyphen_cons in *. exact Hp.
Qed.

Lemma filter_nil_forallb {A} (f : A -> bool) (l : list A) :
  List.filter f l = [] <-> forallb (fun x => negb (f x)) l = true.
Proof.
  induction l as [| x l IH]; simpl; [tauto |].
  destruct (f x); simpl; [split; discriminate | exact IH].
Qed.

(** A text has no hyphen-bulleted line exactly when the pass says so. *)
Lemma noBullet_lines s :
  List.filter hyphenBulleted (Js.split s Js.nl) = []
  <-> noBulletFrom true s = true.
Proof.
  rewrite filter_nil_forallb, split_lines.
  pose proof (noBulletFrom_lines s EmptyString eq_refl) as H.
  destruct (linesOf_nonempty s) as (h & t & Hl).
  rewrite Hl in *. simpl in H. rewrite <- H. reflexivity.
Qed.

(** Cutting a text short, or trimming it, creates no bullet. *)
Lemma noBulletFrom_prefix s x : forall lead,
  noBulletFrom lead (s +:+ x) = true -> noBulletFrom lead s = true.
Proof.
  induction s as [| c s IH]; intros lead; [reflexivity |].
  rewrite append_cons. simpl.
  destruct (Ascii.eqb c Js.LF); [apply IH |].
  destruct lead; [| apply IH].
  destruct (Ascii.eqb c "-"); [discriminate | apply IH].
Qed.

Lemma noBulletFrom_trimStart s :
  noBulletFrom true s = true -> noBulletFrom true (Js.trimStart s) = true.
Proof.
  induction s as [| c s IH]; [reflexivity |].
  simpl Js.trimStart. destruct (Js.isWhiteSpace c) eqn:Hws; [| tauto].
  simpl. destruct (Ascii.eqb c Js.LF); [exact IH |].
  destruct (Ascii.eqb c "-"); [discriminate |].
  rewrite Hws. exact IH.
Qed.

Lemma noBulletFrom_trim s :
  noBulletFrom true s = true -> noBulletFrom true (Js.trim s) = true.
Proof.
  intros H. apply noBulletFrom_trimStart in H. unfold Js.trim.
  destruct (trimEnd_prefix (Js.trimStart s)) as [x Hx].
  rewrite Hx in H. exact (noBulletFrom_prefix _ _ _ H).
Qed.

End LineFacts.

(** * Properties of the URL parser *)

Section ParserFacts.

Implicit Types (url s g rest : string) (c : ascii).

Lemma parseRepoUrl_Throw_inv url e :
  parseRepoUrl url = Throw e ->
  e = Error "Invalid GitHub URL" /\ urlMatch url = None.
Proof.
  unfold parseRepoUrl.
  destruct (urlMatch url) as [[g1 g2] |]; [discriminate |].
  intros [= <-]. split; reflexivity.
Qed.

Lemma parseRepoUrl_Return_inv url ref :
  parseRepoUrl url = Return ref ->
  exists g1 g2,
    urlMatch url = Some (g1, g2)
    /\ owner ref = g1
    /\ repo ref = Js.replace g2 ".git" EmptyString.
Proof.
  unfold parseRepoUrl.
  destruct (urlMatch url) as [[g1 g2] |]; [| discriminate].
  intros [= <-]. exists g1, g2. repeat split; reflexivity.
Qed.

End ParserFacts.

(** ** What the expression matches *)

Section MatchFacts.

Implicit Types (url s g pre rest : string) (c : ascii).

Lemma spanSegment_cons c s :
  spanSegment (String c s) =
  if Ascii.eqb c "/" then (EmptyString, String c s)
  else (String c (fst (spanSegment s)), snd (spanSegment s)).
Proof.
  simpl. destruct (Ascii.eqb c "/"); [reflexivity |].
  destruct (spanSegment s); reflexivity.
Qed.

(** A segment is cut at the first slash. *)
Lemma spanSegment_spec s :
  s = fst (spanSegment s) +:+ snd (spanSegment s)
  /\ slashFree (fst (spanSegment s)) = true
  /\ endOrSlash (snd (spanSegment s)).
Proof.
  induction s as [| c s (IHeq & IHfree & IHend)].
  - repeat split. left. reflexivity.
  - rewrite spanSegment_cons.
    destruct (Ascii.eqb_spec c "/") as [-> | Hc].
    + repeat split. right. eexists. reflexivity.
    + cbn [fst snd]. rewrite append_cons, <- IHeq. simpl slashFree.
      apply Ascii.eqb_neq in Hc. rewrite Hc, IHfree.
      repeat split. exact IHend.
Qed.

Lemma spanSegment_app g rest :
  slashFree g = true ->
  spanSegment (g +:+ rest)
  = (g +:+ fst (spanSegment rest), snd (spanSegment rest)).
Proof.
  induction g as [| c g IH]; intros Hfree.
  - rewrite !append_nil. destruct (spanSegment rest); reflexivity.
  - simpl in Hfree. apply andb_prop in Hfree as [Hc Hg].
    apply negb_true_iff in Hc.
    rewrite append_cons, spanSegment_cons, Hc, (IH Hg). reflexivity.
Qed.

Lemma matchHere_eq s :
  matchHere s =
  match Js.stripPrefix "github.com/" s with
  | None => None
  | Some s1 =>
      if Js.isEmpty (fst (spanSegment s1)) then None
      else match snd (spanSegment s1) with
           | String "/"%char s3 =>
               if Js.isEmpty (fst (spanSegment s3)) then None
               else Some (fst (spanSegment s1), fst (spanSegment s3))
           | _ => None
           end
  end.
Proof.
  unfold matchHere.
  destruct (Js.stripPrefix "github.com/" s) as [s1 |]; [| reflexivity].
  destruct (spanSegment s1) as [g1 s2]. cbn [fst snd].
  destruct (Js.isEmpty g1); [reflexivity |].
  destruct s2 as [| c s3]; [reflexivity |].
  destruct (Ascii.eqb_spec c "/") as [-> | Hc].
  - destruct (spanSegment s3). reflexivity.
  - destruct c as [[] [] [] [] [] [] [] []]; try reflexivity.
    congruence.
Qed.

(** A match at the start of [s]: [s] begins with the host, an owner, a
    slash and a name, both non-empty and without slash, and the name
    runs to the end of [s] or to the next slash. *)
Lemma matchHere_Some s g1 g2 :
  matchHere s = Some (g1, g2) ->
  exists rest,
    s = "github.com/" +:+ g1 +:+ "/" +:+ g2 +:+ rest
    /\ slashFree g1 = true /\ slashFree g2 = true
    /\ g1 <> EmptyString /\ g2 <> EmptyString
    /\ endOrSlash rest.
Proof.
  rewrite matchHere_eq.
  destruct (Js.stripPrefix "github.com/" s) as [s1 |] eqn:Hp;
    [| discriminate].
  apply stripPrefix_Some in Hp.
  destruct (spanSegment_spec s1) as (Heq1 & Hfree1 & _).
  destruct (Js.isEmpty (fst (spanSegment s1))) eqn:He1; [discriminate |].
  destruct (snd (spanSegment s1)) as [| c s3] eqn:Hs2; [discriminate |].
  destruct (Ascii.eqb_spec c "/") as [-> | Hc].
  - destruct (spanSegment_spec s3) as (Heq3 & Hfree3 & Hend3).
    destruct (Js.isEmpty (fst (spanSegment s3))) eqn:He3; [discriminate |].
    intros [= <- <-]. exists (snd (spanSegment s3)).
    split; [| repeat split; try assumption].
    + rewrite Hp, Heq1 at 1. rewrite <- Heq3. reflexivity.
    + intros H0. rewrite H0 in He1. discriminate.
    + intros H0. rewrite H0 in He3. discriminate.
  - destruct c as [[] [] [] [] [] [] [] []]; try discriminate.
    congruence.
Qed.

(** Conversely such a text matches at its start, with these groups. *)
Lemma matchHere_complete g1 g2 rest :
  slashFree g1 = true -> slashFree g2 = true ->
  g1 <> EmptyString -> g2 <> EmptyString ->
  matchHere ("github.com/" +:+ g1 +:+ "/" +:+ g2 +:+ rest)
  = Some (g1, g2 +:+ fst (spanSegment rest)).
Proof.
  intros Hf1 Hf2 Hn1 Hn2. rewrite matchHere_eq, stripPrefix_app.
  rewrite (spanSegment_app g1 _ Hf1). cbn [fst snd].
  rewrite append_cons, append_nil, spanSegment_cons.
  change (Ascii.eqb "/" "/") with true. cbv iota. cbn [fst snd].
  rewrite append_empty_r.
  destruct g1 as [| c1 g1]; [congruence |]. cbn [Js.isEmpty].
  rewrite (spanSegment_app g2 _ Hf2). cbn [fst snd].
  destruct g2 as [| c2 g2]; [congruence |]. reflexivity.
Qed.

Lemma urlMatch_eq url :
  urlMatch url =
  match matchHere url with
  | Some groups => Some groups
  | None =>
      match url with
      | EmptyString => None
      | String _ url' => urlMatch url'
      end
  end.
Proof. destruct url; reflexivity. Qed.

(** The groups [urlMatch] answers are those of a match somewhere in the
    text. *)
Lemma urlMatch_Some url g1 g2 :
  urlMatch url = Some (g1, g2) ->
  exists pre rest,
    url = pre +:+ "github.com/" +:+ g1 +:+ "/" +:+ g2 +:+ rest
    /\ slashFree g1 = true /\ slashFree g2 = true
    /\ g1 <> EmptyString /\ g2 <> EmptyString
    /\ endOrSlash rest.
Proof.
  induction url as [| c url IH]; rewrite urlMatch_eq.
  - destruct (matchHere EmptyString) as [[h1 h2] |] eqn:Hm;
      [| discriminate].
    intros [= <- <-]. exists EmptyString. apply matchHere_Some. exact Hm.
  - destruct (matchHere (String c url)) as [[h1 h2] |] eqn:Hm.
    + intros [= <- <-]. exists EmptyString. apply matchHere_Some. exact Hm.
    + intros H. destruct (IH H) as (pre & rest & -> & Hrest).
      exists (String c pre), rest. split; [reflexivity | exact Hrest].
Qed.

(** And a text that holds the host, an owner, a slash and a name
    anywhere is matched: the parser fails on no such text. *)
Lemma urlMatch_complete pre g1 g2 rest :
  slashFree g1 = true -> slashFree g2 = true ->
  g1 <> EmptyString -> g2 <> EmptyString ->
  urlMatch (pre +:+ "github.com/" +:+ g1 +:+ "/" +:+ g2 +:+ rest) <> None.
Proof.
  intros Hf1 Hf2 Hn1 Hn2.
  induction pre as [| c pre IH]; rewrite urlMatch_eq.
  - rewrite append_nil, (matchHere_complete _ _ _ Hf1 Hf2 Hn1 Hn2).
    discriminate.
  - rewrite append_cons.
    destruct (matchHere _) as [groups |]; [discriminate | exact IH].
Qed.

End MatchFacts.

(** ** Where the parser agrees with the specification *)

Section ParserAgreement.

Implicit Types (s b x : string) (c : ascii).

Lemma matchHere_other_start c s :
  Ascii.eqb "g" c = false -> matchHere (String c s) = None.
Proof.
  intros Hc. unfold matchHere.
  change (Js.stripPrefix "github.com/" (String c s)) with
    (if Ascii.eqb "g" c then Js.stripPrefix "ithub.com/" s else None).
  rewrite Hc. reflexivity.
Qed.

Lemma urlMatch_https s : urlMatch ("https://" +:+ s) = urlMatch s.
Proof.
  change ("https://" +:+ s) with
    (String "h" (String "t" (String "t" (String "p" (String "s"
       (String ":" (String "/" (String "/" s)))))))).
  do 8 (rewrite urlMatch_eq, matchHere_other_start by reflexivity).
  reflexivity.
Qed.

(** On an [https] address of the host with an owner and a name, the
    parser answers the owner as it stands and the name through
    [replace]. *)
Lemma parseRepoUrl_https o r :
  slashFree o = true -> slashFree r = true ->
  o <> EmptyString -> r <> EmptyString ->
  parseRepoUrl ("https://" +:+ "github.com/" +:+ o +:+ "/" +:+ r)
  = Return {| owner := o; repo := Js.replace r ".git" EmptyString |}.
Proof.
  intros Hfo Hfr Hno Hnr. unfold parseRepoUrl.
  rewrite urlMatch_https, urlMatch_eq.
  rewrite <- (append_empty_r r) at 1.
  rewrite (matchHere_complete o r EmptyString Hfo Hfr Hno Hnr).
  cbn [spanSegment fst]. rewrite append_empty_r. reflexivity.
Qed.

Lemma findFirst_cons pat c s :
  Js.findFirst pat (String c s) =
  match Js.stripPrefix pat (String c s) with
  | Some rest => Some (EmptyString, rest)
  | None =>
      match Js.findFirst pat s with
      | Some (before, after) => Some (String c before, after)
      | None => None
      end
  end.
Proof. reflexivity. Qed.

Lemma findFirst_None_cons pat c s :
  Js.findFirst pat (String c s) = None ->
  Js.stripPrefix pat (String c s) = None /\ Js.findFirst pat s = None.
Proof.
  rewrite findFirst_cons.
  destruct (Js.stripPrefix pat (String c s)); [discriminate |].
  destruct (Js.findFirst pat s) as [[b a] |]; [discriminate |].
  split; reflexivity.
Qed.

Lemma stripTrailingGit_cons c s :
  stripTrailingGit (String c s) =
  if String.eqb (String c s) ".git" then EmptyString
  else String c (stripTrailingGit s).
Proof. reflexivity. Qed.

(** A name without [.git] is left as it is, by the code and by the
    specification. *)
Lemma replace_git_absent s :
  Js.findFirst ".git" s = None ->
  Js.replace s ".git" EmptyString = s /\ stripTrailingGit s = s.
Proof.
  intros H. split; [unfold Js.replace; rewrite H; reflexivity |].
  induction s as [| c s IH]; [reflexivity |].
  apply findFirst_None_cons in H as [Hp Hf].
  rewrite stripTrailingGit_cons.
  destruct (String.eqb_spec (String c s) ".git") as [Heq | _].
  - rewrite Heq in Hp. discriminate Hp.
  - rewrite (IH Hf). reflexivity.
Qed.

Lemma stripPrefix_git_extend c s :
  Js.stripPrefix ".git" (String c s) = None ->
  Js.stripPrefix ".git" (String c (s +:+ ".git")) = None.
Proof.
  intros H.
  destruct (Ascii.eqb_spec "." c) as [<- | Hc];
    [| apply Ascii.eqb_neq in Hc; cbn [Js.stripPrefix]; rewrite Hc;
       reflexivity].
  destruct s as [| c1 s]; [reflexivity |].
  destruct (Ascii.eqb_spec "g" c1) as [<- | Hc1];
    [| apply Ascii.eqb_neq in Hc1; rewrite append_cons;
       cbn [Js.stripPrefix]; rewrite Hc1; reflexivity].
  destruct s as [| c2 s]; [reflexivity |].
  destruct (Ascii.eqb_spec "i" c2) as [<- | Hc2];
    [| apply Ascii.eqb_neq in Hc2; rewrite !append_cons;
       cbn [Js.stripPrefix]; rewrite Hc2; reflexivity].
  destruct s as [| c3 s]; [reflexivity |].
  destruct (Ascii.eqb_spec "t" c3) as [<- | Hc3];
    [discriminate H
    | apply Ascii.eqb_neq in Hc3; rewrite !append_cons;
      cbn [Js.stripPrefix]; rewrite Hc3; reflexivity].
Qed.

(** A name that ends in [.git] and has no other [.git] loses exactly
    that suffix, by the code and by the specification. *)
Lemma replace_git_trailing b :
  Js.findFirst ".git" b = None ->
  Js.replace (b +:+ ".git") ".git" EmptyString = b
  /\ stripTrailingGit (b +:+ ".git") = b.
Proof.
  intros H.
  assert (Hf : Js.findFirst ".git" (b +:+ ".git")
               = Some (b, EmptyString)).
  { induction b as [| c b IH]; [reflexivity |].
    apply findFirst_None_cons in H as [Hp Hf].
    rewrite append_cons, findFirst_cons.
    rewrite (stripPrefix_git_extend _ _ Hp), (IH Hf). reflexivity. }
  split.
  - unfold Js.replace. rewrite Hf, append_nil, append_empty_r. reflexivity.
  - clear Hf. induction b as [| c b IH]; [reflexivity |].
    apply findFirst_None_cons in H as [Hp Hf].
    rewrite append_cons, stripTrailingGit_cons.
    destruct (String.eqb_spec (String c (b +:+ ".git")) ".git")
      as [Heq | _].
    + apply (f_equal String.length) in Heq.
      simpl String.length in Heq. rewrite length_append in Heq.
      simpl String.length in Heq. lia.
    + rewrite (IH Hf). reflexivity.
Qed.

End ParserAgreement.

(** * The URL parser against its specification *)

(** C3 (code evaluated at a failing input): the address of a GitHub
    Pages repository.  The name has no [.git] at its end, so the
    specification keeps it whole; [replace] removes the first [.git]
    wherever it stands, here in the middle of the name. *)
Theorem parseRepoUrl_removes_inner_git :
  parseRepoUrl "https://github.com/octocat/octocat.github.io"
  = Return {| owner := "octocat"; repo := "octocathub.io" |}
  /\ stripTrailingGit "octocat.github.io" = "octocat.github.io".
Proof. split; vm_compute; reflexivity. Qed.

(** * Properties of the insight generator *)

Section InsightFacts.

Implicit Types (reply s : string) (metrics : MetricsRecord) (score : Z).

Lemma trim_empty : Js.trim EmptyString = EmptyString.
Proof. reflexivity. Qed.

(** [parseResponse] never throws, and computes the summary from the text
    before the first marker and the roadmap from the text between the
    first marker and the next. *)
Lemma parseResponse_eq reply :
  parseResponse reply =
  Return {| summary :=
              Js.trim (Js.replace (beforeMarker reply) "SUMMARY:" EmptyString);
            roadmap := roadmapItems (roadmapTextOf reply) |}.
Proof.
  unfold parseResponse, beforeMarker, roadmapTextOf, roadmapItems.
  rewrite split_first, split_second.
  destruct (Js.findFirst "ROADMAP:" reply) as [[before after] |];
    [| reflexivity].
  destruct (Js.findFirst "ROADMAP:" after) as [[between rest] |].
  - destruct between; reflexivity.
  - destruct after; reflexivity.
Qed.

Section WithModel.

Variable generateContent : string -> completion string.

Lemma generateAIInsights_reply metrics score reply :
  generateContent (prompt metrics score) = Return reply ->
  generateAIInsights generateContent metrics score = parseResponse reply.
Proof.
  intros H. unfold generateAIInsights, bind, try_catch. rewrite H.
  rewrite parseResponse_eq. reflexivity.
Qed.

Lemma generateAIInsights_thrown metrics score e :
  generateContent (prompt metrics score) = Throw e ->
  generateAIInsights generateContent metrics score
  = Return (fallback metrics score).
Proof.
  intros H. unfold generateAIInsights, bind, try_catch. rewrite H.
  reflexivity.
Qed.

(** The generator returns on every path. *)
Lemma generateAIInsights_returns metrics score :
  returns (generateAIInsights generateContent metrics score).
Proof.
  destruct (generateContent (prompt metrics score)) as [reply | e] eqn:H.
  - rewrite (generateAIInsights_reply _ _ _ H), parseResponse_eq.
    apply returns_Return.
  - rewrite (generateAIInsights_thrown _ _ _ H). apply returns_Return.
Qed.

End WithModel.

(** The roadmap of the fallback has six items, whatever the metrics. *)
Lemma fallback_roadmap_length metrics score :
  length (roadmap (fallback metrics score)) = 6%nat.
Proof. reflexivity. Qed.

(** A text without hyphen-bulleted line has no roadmap item, before or
    after trimming. *)
Lemma roadmapItems_no_bullet text :
  List.filter hyphenBulleted (Js.split text Js.nl) = [] ->
  roadmapItems text = [].
Proof. intros H. unfold roadmapItems. rewrite H. reflexivity. Qed.

Lemma roadmapTextOf_no_bullet reply :
  noBulletAfterMarker reply ->
  List.filter hyphenBulleted (Js.split (roadmapTextOf reply) Js.nl) = [].
Proof.
  unfold noBulletAfterMarker, roadmapTextOf.
  destruct (Js.findFirst "ROADMAP:" reply) as [[before after] |];
    [| reflexivity].
  rewrite !noBullet_lines. intros H. apply noBulletFrom_trim.
  destruct (Js.findFirst "ROADMAP:" after) as [[between rest] |] eqn:Hf;
    [| exact H].
  apply findFirst_Some in Hf. rewrite Hf in H.
  exact (noBulletFrom_prefix _ _ _ H).
Qed.

End InsightFacts.

(** ** Where the generator agrees with the specification *)

Section InsightAgreement.

Implicit Types (s line item text : string) (c : ascii).

Lemma trimEnd_trimStart s :
  Js.trimEnd (Js.trimStart s) = Js.trimStart (Js.trimEnd s).
Proof.
  induction s as [| c s IH]; [reflexivity |].
  rewrite trimStart_cons, (trimEnd_cons c s).
  destruct (Js.isWhiteSpace c) eqn:Hc.
  - rewrite IH. cbn [andb].
    destruct (Js.trimEnd s) as [| d t] eqn:Ht; [reflexivity |].
    cbn [Js.isEmpty]. rewrite (trimStart_cons c), Hc. reflexivity.
  - cbn [andb]. rewrite (trimStart_cons c), Hc, trimEnd_cons, Hc.
    reflexivity.
Qed.

(** On a line that itself starts with the hyphen, stripping the bullet
    before or after trimming gives the same item. *)
Lemma item_of_unindented_line line :
  Js.startsWith line "-" = true ->
  Js.trim (Js.replaceLeadingDash line)
  = Js.replaceLeadingDash (Js.trim line).
Proof.
  destruct line as [| c r]; [discriminate |].
  rewrite startsWith_hyphen_cons. intros Hc.
  apply Ascii.eqb_eq in Hc. subst c.
  change (Js.replaceLeadingDash (String "-" r)) with (Js.trimStart r).
  unfold Js.trim. rewrite trimStart_idempotent, trimEnd_trimStart.
  reflexivity.
Qed.

Lemma filter_map_filter_ext {A B} (h : A -> bool) (f g : A -> B)
  (P Q : B -> bool) (l : list A) :
  (forall x, In x l -> h x = true -> f x = g x) ->
  (forall y, P y = Q y) ->
  List.filter P (map f (List.filter h l))
  = List.filter Q (map g (List.filter h l)).
Proof.
  intros Hfg HPQ. induction l as [| x l IH]; [reflexivity |].
  simpl. destruct (h x) eqn:Hx.
  - simpl. rewrite (Hfg x) by (auto; left; reflexivity).
    rewrite HPQ, IH; [reflexivity |].
    intros y Hy. apply Hfg. right. exact Hy.
  - apply IH. intros y Hy. apply Hfg. right. exact Hy.
Qed.

(** When no bullet of the text is indented, the roadmap of the code is
    the roadmap of the specification. *)
Lemma roadmapItems_unindented text :
  (forall line, In line (Js.split text Js.nl) ->
     hyphenBulleted line = true -> Js.startsWith line "-" = true) ->
  roadmapItems text = specRoadmap text.
Proof.
  intros H. unfold roadmapItems, specRoadmap.
  apply filter_map_filter_ext.
  - intros line Hin Hb. apply item_of_unindented_line. exact (H _ Hin Hb).
  - intros [| c y]; reflexivity.
Qed.

(** ** Bullets in, items out *)

Lemma findFirst_line_then_nl line rest :
  Js.findFirst Js.nl line = None ->
  Js.findFirst Js.nl (line +:+ Js.nl +:+ rest) = Some (line, rest).
Proof.
  induction line as [| c line IH]; intros H.
  - rewrite append_nil. unfold Js.nl at 2. rewrite append_cons, append_nil.
    rewrite findFirst_nl_cons, Ascii.eqb_refl. reflexivity.
  - rewrite findFirst_nl_cons in H. rewrite append_cons, findFirst_nl_cons.
    destruct (Ascii.eqb c Js.LF); [discriminate |].
    destruct (Js.findFirst Js.nl line) as [[b a] |]; [discriminate |].
    rewrite IH by reflexivity. reflexivity.
Qed.

(** Splitting joined lines gives the lines back. *)
Lemma split_join_lines (lines : list string) :
  lines <> [] ->
  Forall (fun line => Js.findFirst Js.nl line = None) lines ->
  Js.split (Js.join Js.nl lines) Js.nl = lines.
Proof.
  induction lines as [| x lines IH]; [congruence |].
  intros _ Hall. inversion Hall as [| ? ? Hx Hrest]; subst.
  destruct lines as [| y lines].
  - simpl Js.join. unfold Js.nl in *.
    apply split_without_separator. exact Hx.
  - change (Js.join Js.nl (x :: y :: lines)) with
      (x +:+ Js.nl +:+ Js.join Js.nl (y :: lines)).
    unfold Js.nl at 3. rewrite split_unfold. fold Js.nl.
    rewrite (findFirst_line_then_nl _ _ Hx).
    f_equal. apply IH; [discriminate | exact Hrest].
Qed.

Lemma bullet_one_line item :
  Js.findFirst Js.nl item = None -> Js.findFirst Js.nl (bullet item) = None.
Proof.
  intros H. unfold bullet.
  change ("- " +:+ item) with (String "-" (String " " item)).
  rewrite !findFirst_nl_cons, H. reflexivity.
Qed.

Lemma bullet_hyphenBulleted item : hyphenBulleted (bullet item) = true.
Proof.
  rewrite hyphenBulleted_trimStart. unfold bullet.
  change ("- " +:+ item) with (String "-" (String " " item)).
  reflexivity.
Qed.

Lemma bullet_item item :
  Js.trim item = item ->
  Js.trim (Js.replaceLeadingDash (bullet item)) = item.
Proof.
  intros H. unfold bullet.
  change (Js.replaceLeadingDash ("- " +:+ item)) with (Js.trimStart item).
  unfold Js.trim in *. rewrite trimStart_idempotent. exact H.
Qed.

Lemma items_of_bullets (items : list string) :
  Forall plainItem items ->
  List.filter (fun item => (0 <? String.length item)%nat)
    (map (fun line => Js.trim (Js.replaceLeadingDash line))
       (List.filter hyphenBulleted (map bullet items)))
  = items.
Proof.
  induction 1 as [| item items (Hne & Htrim & _) _ IH]; [reflexivity |].
  cbn [map List.filter]. rewrite bullet_hyphenBulleted.
  cbn [map List.filter]. rewrite (bullet_item _ Htrim).
  destruct item as [| c item]; [congruence |].
  cbn [String.length Nat.ltb Nat.leb]. f_equal. exact IH.
Qed.

(** Any number of bullets of plain items gives as many roadmap items, the
    items themselves, in their order. *)
Lemma roadmapItems_bullets (items : list string) :
  Forall plainItem items ->
  roadmapItems (Js.join Js.nl (map bullet items)) = items.
Proof.
  intros Hall. destruct items as [| item0 items0] eqn:Hitems;
    [reflexivity |].
  rewrite <- Hitems in *. unfold roadmapItems.
  rewrite split_join_lines.
  - apply items_of_bullets. exact Hall.
  - rewrite Hitems. discriminate.
  - clear Hitems. induction Hall as [| item items (_ & _ & Hline) _ IH];
      constructor; [apply bullet_one_line; exact Hline | exact IH].
Qed.

(** The sample reply with five bullets: five items, in the order of the
    bullets. *)
Lemma generateAIInsights_five_bullets (metrics : MetricsRecord) (score : Z) :
  generateAIInsights (fun _ => Return fiveBulletReply) metrics score
  = Return
      {| summary := "Active project with tests but little documentation.";
         roadmap := [ "Expand the README";
                      "Add a contribution guide";
                      "Set up continuous integration";
                      "Tag releases";
                      "Document the public API" ] |}.
Proof.
  unfold generateAIInsights, bind, try_catch. cbv beta.
  vm_compute. reflexivity.
Qed.

(** A generation call that throws gives the fallback, with its six
    items. *)
Lemma generateAIInsights_fallback
  (generateContent : string -> completion string)
  (metrics : MetricsRecord) (score : Z) (e : JsError) :
  generateContent (prompt metrics score) = Throw e ->
  exists insights,
    generateAIInsights generateContent metrics score = Return insights
    /\ insights = fallback metrics score
    /\ length (roadmap insights) = 6%nat.
Proof.
  intros H. exists (fallback metrics score).
  split; [apply (generateAIInsights_thrown _ _ _ _ H) |].
  split; reflexivity.
Qed.

End InsightAgreement.

(** * The insight generator against its specification *)

(** C5 (code evaluated at a failing input): a reply whose second bullet
    is indented.  The filter keeps the line, since trimmed it starts with
    a hyphen, but the hyphen is then looked for at the start of the
    untrimmed line, so the item keeps its hyphen; the specification's
    wording gives the item without it. *)
Theorem generateAIInsights_indented_bullet_keeps_hyphen
  (metrics : MetricsRecord) (score : Z) :
  generateAIInsights (fun _ => Return indentedReply) metrics score
  = Return {| summary := "Solid start.";
              roadmap := ["Add tests"; "- Cover the parser"] |}
  /\ match Js.findFirst "ROADMAP:" indentedReply with
     | Some (_, after) => specRoadmap after
     | None => []
     end = ["Add tests"; "Cover the parser"].
Proof.
  split.
  - unfold generateAIInsights, bind, try_catch. cbv beta.
    vm_compute. reflexivity.
  - vm_compute. reflexivity.
Qed.

(** C6: the fallback is for a generation call that throws only.  When
    the call returns a reply that has no marker, or no hyphen-bulleted
    line after its marker, the result is the parsed summary with an empty
    roadmap, and it is not the fallback. *)
Theorem generateAIInsights_malformed_reply_no_fallback
  (generateContent : string -> completion string)
  (metrics : MetricsRecord) (score : Z) (reply : string) :
  generateContent (prompt metrics score) = Return reply ->
  noBulletAfterMarker reply ->
  generateAIInsights generateContent metrics score
  = Return {| summary :=
                Js.trim
                  (Js.replace (beforeMarker reply) "SUMMARY:" EmptyString);
              roadmap := [] |}
  /\ generateAIInsights generateContent metrics score
     <> Return (fallback metrics score).
Proof.
  intros Hreply Hno.
  rewrite (generateAIInsights_reply _ _ _ _ Hreply), parseResponse_eq.
  rewrite (roadmapItems_no_bullet _ (roadmapTextOf_no_bullet _ Hno)).
  split; [reflexivity |].
  intros Hfallback. discriminate Hfallback.
Qed.

(** The same on a reply in prose, without marker. *)
Lemma generateAIInsights_malformed_reply_no_fallback_witness :
  generateAIInsights (fun _ => Return proseReply) emptyMetrics 5
  = Return {| summary :=
                Js.trim
                  (Js.replace (beforeMarker proseReply) "SUMMARY:"
                     EmptyString);
              roadmap := [] |}
  /\ generateAIInsights (fun _ => Return proseReply) emptyMetrics 5
     <> Return (fallback emptyMetrics 5).
Proof.
  apply (generateAIInsights_malformed_reply_no_fallback
           (fun _ => Return proseReply) emptyMetrics 5 proseReply).
  - reflexivity.
  - vm_compute. exact I.
Defined.

(** * The orchestrator against its specification *)

(** C9: [analyzeRepository] either returns the whole result, with the
    score, the summary, the roadmap and the metrics object with its
    fifteen keys, or throws one error whose message is the message of the
    failed stage behind the prefix of the orchestrator: the parser's
    message for a URL that does not match, the fetcher's message, itself
    the prefixed message of the failed call, otherwise.  No other error
    leaves it. *)
Theorem analyzeRepository_outcome
  (octokit : Octokit) (base64Length : string -> Z) (threeMonthsAgo : Z)
  (generateContent : string -> completion string) (repoUrl : string) :
  match analyzeRepository octokit base64Length threeMonthsAgo
          generateContent repoUrl with
  | Return result =>
      exists (ref : RepositoryReference) (m : gmap string JsValue)
             (r : MetricsRecord) (insights : InsightResult),
        parseRepoUrl repoUrl = Return ref
        /\ fetchMetrics octokit base64Length threeMonthsAgo
             (owner ref) (repo ref) = Return m
        /\ dom m = metricsKeys
        /\ asRecord m = Some r
        /\ generateAIInsights generateContent r (calculateScore r)
           = Return insights
        /\ result = {| Analysis.score := calculateScore r;
                       Analysis.summary := summary insights;
                       Analysis.roadmap := roadmap insights;
                       Analysis.metrics := m |}
  | Throw error =>
      (parseRepoUrl repoUrl = Throw (Error "Invalid GitHub URL")
       /\ error = Error "Analysis failed: Invalid GitHub URL")
      \/ (exists (ref : RepositoryReference) (e0 e1 : JsError),
            parseRepoUrl repoUrl = Return ref
            /\ fetchMetrics octokit base64Length threeMonthsAgo
                 (owner ref) (repo ref) = Throw e0
            /\ e0 = Error ("Failed to fetch metrics: " +:+ message e1)
            /\ error = Error ("Analysis failed: " +:+ message e0))
  end.
Proof.
  unfold analyzeRepository, try_catch, bind.
  destruct (parseRepoUrl repoUrl) as [ref | e] eqn:Hparse.
  - destruct (fetchMetrics octokit base64Length threeMonthsAgo
                (owner ref) (repo ref)) as [m | e0] eqn:Hfetch.
    + destruct (fetchMetrics_typed _ _ _ _ _ _ Hfetch) as [Hdom [r Hr]].
      rewrite Hr.
      destruct (generateAIInsights_returns generateContent r
                  (calculateScore r)) as [insights Hins].
      rewrite Hins.
      exists ref, m, r, insights. repeat split; assumption || reflexivity.
    + right.
      destruct (fetchMetrics_Throw_inv _ _ _ _ _ _ Hfetch)
        as (e1 & He0 & _).
      exists ref, e0, e1. repeat split; assumption || reflexivity.
  - left. apply parseRepoUrl_Throw_inv in Hparse as [-> _].
    split; reflexivity.
Qed.

(** * Further properties of the scorer *)

Section ScorerMore.

Implicit Types (m metrics : MetricsRecord) (s : Z).

Lemma rawScore_total m : rawScore m = Rules.total m.
Proof.
  unfold rawScore, Rules.total.
  rewrite score_prs_rule, score_branches_rule, score_cicd_rule,
    score_tests_rule, score_recent_rule, score_commits_rule,
    score_readme_rule.
  lia.
Qed.

Lemma readme_eq_20 m :
  Rules.readme m = 20 <-> has_readme m = true /\ 1000 < readme_length m.
Proof.
  unfold Rules.readme. destruct (has_readme m); cbn [negb].
  - destruct (Z.ltb_spec 1000 (readme_length m));
      [| destruct (Z.ltb_spec 500 (readme_length m))];
      intuition (lia || discriminate).
  - intuition (lia || discriminate).
Qed.

Lemma readme_eq_0 m : Rules.readme m = 0 <-> has_readme m = false.
Proof.
  unfold Rules.readme. destruct (has_readme m); cbn [negb].
  - destruct (Z.ltb_spec 1000 (readme_length m));
      [| destruct (Z.ltb_spec 500 (readme_length m))];
      intuition (lia || discriminate).
  - intuition (lia || discriminate).
Qed.

Lemma commit_volume_eq_25 m :
  Rules.commit_volume m = 25 <-> 100 <= total_commits m.
Proof.
  unfold Rules.commit_volume.
  destruct (Z.leb_spec 100 (total_commits m)); [intuition lia |].
  destruct (Z.leb_spec 50 (total_commits m)); [intuition lia |].
  destruct (Z.leb_spec 20 (total_commits m)); [intuition lia |].
  assert (total_commits m / 2 < 10) by (apply Z.div_lt_upper_bound; lia).
  intuition lia.
Qed.

Lemma commit_volume_eq_5 m :
  Rules.commit_volume m = 5 <-> total_commits m < 12.
Proof.
  unfold Rules.commit_volume.
  destruct (Z.leb_spec 100 (total_commits m)); [intuition lia |].
  destruct (Z.leb_spec 50 (total_commits m)); [intuition lia |].
  destruct (Z.leb_spec 20 (total_commits m)); [intuition lia |].
  split.
  - intros Hmax.
    destruct (Z.lt_ge_cases (total_commits m) 12) as [Hlt | Hge];
      [exact Hlt |].
    assert (6 <= total_commits m / 2)
      by (apply Z.div_le_lower_bound; lia).
    lia.
  - intros Hlt.
    assert (total_commits m / 2 < 6)
      by (apply Z.div_lt_upper_bound; lia).
    lia.
Qed.

Lemma recent_activity_eq_15 m :
  Rules.recent_activity m = 15 <-> 20 < recent_commits m.
Proof.
  unfold Rules.recent_activity.
  repeat match goal with
    | |- context [?a <? ?b] => destruct (Z.ltb_spec a b)
    end; intuition lia.
Qed.

Lemma recent_activity_eq_0 m :
  Rules.recent_activity m = 0 <-> recent_commits m <= 0.
Proof.
  unfold Rules.recent_activity.
  repeat match goal with
    | |- context [?a <? ?b] => destruct (Z.ltb_spec a b)
    end; intuition lia.
Qed.

Lemma tests_eq m :
  (Rules.tests m = 20 <-> has_tests m = true)
  /\ (Rules.tests m = 0 <-> has_tests m = false).
Proof.
  unfold Rules.tests. destruct (has_tests m);
    intuition (lia || discriminate).
Qed.

Lemma cicd_eq m :
  (Rules.cicd m = 10 <-> has_cicd m = true)
  /\ (Rules.cicd m = 0 <-> has_cicd m = false).
Proof.
  unfold Rules.cicd. destruct (has_cicd m);
    intuition (lia || discriminate).
Qed.

Lemma branch_usage_eq m :
  (Rules.branch_usage m = 5 <-> 3 < branch_count m)
  /\ (Rules.branch_usage m = 0 <-> branch_count m <= 1).
Proof.
  unfold Rules.branch_usage.
  repeat match goal with
    | |- context [?a <? ?b] => destruct (Z.ltb_spec a b)
    end; intuition lia.
Qed.

Lemma pull_requests_eq m :
  (Rules.pull_requests m = 5 <-> 10 < total_prs m)
  /\ (Rules.pull_requests m = 0 <-> total_prs m <= 0).
Proof.
  unfold Rules.pull_requests.
  repeat match goal with
    | |- context [?a <? ?b] => destruct (Z.ltb_spec a b)
    end; intuition lia.
Qed.

Lemma total_eq_100 m :
  Rules.total m = 100 <->
  Rules.readme m = 20 /\ Rules.commit_volume m = 25
  /\ Rules.recent_activity m = 15 /\ Rules.tests m = 20
  /\ Rules.cicd m = 10 /\ Rules.branch_usage m = 5
  /\ Rules.pull_requests m = 5.
Proof.
  unfold Rules.total.
  pose proof (readme_range m). pose proof (commit_volume_upper m).
  pose proof (recent_activity_range m). pose proof (tests_range m).
  pose proof (cicd_range m). pose proof (branch_usage_range m).
  pose proof (pull_requests_range m). lia.
Qed.

Lemma total_eq_5 m :
  Rules.total m = 5 <->
  Rules.readme m = 0 /\ Rules.commit_volume m = 5
  /\ Rules.recent_activity m = 0 /\ Rules.tests m = 0
  /\ Rules.cicd m = 0 /\ Rules.branch_usage m = 0
  /\ Rules.pull_requests m = 0.
Proof.
  unfold Rules.total.
  pose proof (readme_range m). pose proof (commit_volume_lower m).
  pose proof (recent_activity_range m). pose proof (tests_range m).
  pose proof (cicd_range m). pose proof (branch_usage_range m).
  pose proof (pull_requests_range m). lia.
Qed.

End ScorerMore.

(** X1: every statement of [calculateScore] adds at least 0 and at most
    the points its comment announces (20, 25, 15, 20, 10, 5, 5; the
    commit statement at least 5), whatever the score before it; so the
    score before [Math.min] never exceeds 100 and [Math.min] never
    changes it. *)
Theorem calculateScore_caps_and_idle_clamp (m : MetricsRecord) (s : Z) :
  s <= score_readme m s <= s + 20
  /\ s + 5 <= score_commits m s <= s + 25
  /\ s <= score_recent m s <= s + 15
  /\ s <= score_tests m s <= s + 20
  /\ s <= score_cicd m s <= s + 10
  /\ s <= score_branches m s <= s + 5
  /\ s <= score_prs m s <= s + 5
  /\ rawScore m <= 100
  /\ calculateScore m = rawScore m.
Proof.
  rewrite score_prs_rule, score_branches_rule, score_cicd_rule,
    score_tests_rule, score_recent_rule, score_commits_rule,
    score_readme_rule, calculateScore_total, rawScore_total.
  pose proof (readme_range m). pose proof (commit_volume_lower m).
  pose proof (commit_volume_upper m). pose proof (recent_activity_range m).
  pose proof (tests_range m). pose proof (cicd_range m).
  pose proof (branch_usage_range m). pose proof (pull_requests_range m).
  pose proof (total_range m). lia.
Qed.

(** X2: the score is 100 exactly for a repository with a README longer
    than 1000 bytes, at least 100 commits, more than 20 of them recent,
    tests, CI/CD, more than 3 branches and more than 10 pull requests. *)
Theorem calculateScore_100_iff (m : MetricsRecord) :
  calculateScore m = 100 <->
  has_readme m = true /\ 1000 < readme_length m
  /\ 100 <= total_commits m /\ 20 < recent_commits m
  /\ has_tests m = true /\ has_cicd m = true
  /\ 3 < branch_count m /\ 10 < total_prs m.
Proof.
  rewrite calculateScore_total.
  pose proof (total_range m) as Hrange.
  replace (Z.min 100 (Rules.total m)) with (Rules.total m) by lia.
  rewrite total_eq_100, readme_eq_20, commit_volume_eq_25,
    recent_activity_eq_15.
  rewrite (proj1 (tests_eq m)), (proj1 (cicd_eq m)),
    (proj1 (branch_usage_eq m)), (proj1 (pull_requests_eq m)).
  tauto.
Qed.

(** X3: the score is at its minimum, 5, exactly for a repository without
    README, with fewer than 12 commits, none of them recent, without
    tests and CI/CD, with at most one branch and no pull request. *)
Theorem calculateScore_5_iff (m : MetricsRecord) :
  calculateScore m = 5 <->
  has_readme m = false /\ total_commits m < 12
  /\ recent_commits m <= 0
  /\ has_tests m = false /\ has_cicd m = false
  /\ branch_count m <= 1 /\ total_prs m <= 0.
Proof.
  rewrite calculateScore_total.
  pose proof (total_range m) as Hrange.
  replace (Z.min 100 (Rules.total m)) with (Rules.total m) by lia.
  rewrite total_eq_5, readme_eq_0, commit_volume_eq_5,
    recent_activity_eq_0.
  rewrite (proj2 (tests_eq m)), (proj2 (cicd_eq m)),
    (proj2 (branch_usage_eq m)), (proj2 (pull_requests_eq m)).
  tauto.
Qed.

(** X4: the score never goes down when a repository gains something:
    more commits, more recent commits, a README or a longer one, tests,
    CI/CD, more branches, more pull requests. *)
Theorem calculateScore_monotone (m m' : MetricsRecord) :
  (has_readme m = true -> has_readme m' = true) ->
  readme_length m <= readme_length m' ->
  total_commits m <= total_commits m' ->
  recent_commits m <= recent_commits m' ->
  (has_tests m = true -> has_tests m' = true) ->
  (has_cicd m = true -> has_cicd m' = true) ->
  branch_count m <= branch_count m' ->
  total_prs m <= total_prs m' ->
  calculateScore m <= calculateScore m'.
Proof.
  intros Hr Hl Hc Hrc Ht Hci Hb Hp.
  rewrite !calculateScore_total.
  apply Z.min_le_compat_l. unfold Rules.total.
  assert (Rules.readme m <= Rules.readme m').
  { unfold Rules.readme.
    destruct (has_readme m); [rewrite Hr by reflexivity |];
      cbn [negb];
      repeat match goal with
        | |- context [if negb ?b then _ else _] => destruct b; cbn [negb]
        | |- context [?a <? ?b] => destruct (Z.ltb_spec a b)
        end; lia. }
  assert (Rules.commit_volume m <= Rules.commit_volume m').
  { unfold Rules.commit_volume.
    assert (total_commits m / 2 <= total_commits m' / 2)
      by (apply Z.div_le_mono; lia).
    repeat match goal with
      | |- context [?a <=? ?b] => destruct (Z.leb_spec a b)
      end;
      try (assert (total_commits m / 2 < 10)
             by (apply Z.div_lt_upper_bound; lia));
      lia. }
  assert (Rules.recent_activity m <= Rules.recent_activity m').
  { unfold Rules.recent_activity.
    repeat match goal with
      | |- context [?a <? ?b] => destruct (Z.ltb_spec a b)
      end; lia. }
  assert (Rules.tests m <= Rules.tests m').
  { unfold Rules.tests.
    destruct (has_tests m); [rewrite Ht by reflexivity; lia |].
    destruct (has_tests m'); lia. }
  assert (Rules.cicd m <= Rules.cicd m').
  { unfold Rules.cicd.
    destruct (has_cicd m); [rewrite Hci by reflexivity; lia |].
    destruct (has_cicd m'); lia. }
  assert (Rules.branch_usage m <= Rules.branch_usage m').
  { unfold Rules.branch_usage.
    repeat match goal with
      | |- context [?a <? ?b] => destruct (Z.ltb_spec a b)
      end; lia. }
  assert (Rules.pull_requests m <= Rules.pull_requests m').
  { unfold Rules.pull_requests.
    repeat match goal with
      | |- context [?a <? ?b] => destruct (Z.ltb_spec a b)
      end; lia. }
  lia.
Qed.

(** The same from the empty repository to a complete one. *)
Lemma calculateScore_monotone_witness :
  calculateScore emptyMetrics
  <= calculateScore (scored emptyMetrics 120 25 true 1500 true true 5 15).
Proof.
  apply (calculateScore_monotone emptyMetrics
           (scored emptyMetrics 120 25 true 1500 true true 5 15));
    simpl; (discriminate || lia).
Defined.

(** * Further properties of the URL parser *)

Section ParserMore.

Implicit Types (url s pre rest o n : string) (c : ascii).

Lemma slashFree_app s1 s2 :
  slashFree (s1 +:+ s2) = slashFree s1 && slashFree s2.
Proof.
  induction s1 as [| c s1 IH]; [reflexivity |].
  rewrite append_cons. cbn [slashFree]. rewrite IH, andb_assoc. reflexivity.
Qed.

Lemma spanSegment_endOrSlash rest :
  endOrSlash rest -> fst (spanSegment rest) = EmptyString.
Proof. intros [-> | [rest' ->]]; reflexivity. Qed.

(** No match starts on a character other than [g], so a prefix without
    [g] is skipped. *)
Lemma urlMatch_skip pre s :
  charFree "g" pre = true -> urlMatch (pre +:+ s) = urlMatch s.
Proof.
  induction pre as [| c pre IH]; intros Hfree; [reflexivity |].
  cbn [charFree] in Hfree. apply andb_prop in Hfree as [Hc Hpre].
  apply negb_true_iff in Hc.
  rewrite append_cons, urlMatch_eq, matchHere_other_start
    by (rewrite Ascii.eqb_sym; exact Hc).
  apply IH. exact Hpre.
Qed.

(** The parser on an address made of a prefix without [g], the host, an
    owner, a name, and then nothing or a further path. *)
Lemma parseRepoUrl_address pre o n rest :
  charFree "g" pre = true ->
  slashFree o = true -> slashFree n = true ->
  o <> EmptyString -> n <> EmptyString ->
  endOrSlash rest ->
  parseRepoUrl (pre +:+ "github.com/" +:+ o +:+ "/" +:+ n +:+ rest)
  = Return {| owner := o; repo := Js.replace n ".git" EmptyString |}.
Proof.
  intros Hpre Hfo Hfn Hno Hnn Hrest. unfold parseRepoUrl.
  rewrite (urlMatch_skip _ _ Hpre), urlMatch_eq.
  rewrite (matchHere_complete o n rest Hfo Hfn Hno Hnn).
  rewrite (spanSegment_endOrSlash _ Hrest), append_empty_r. reflexivity.
Qed.

Lemma git_suffix_name n :
  slashFree n = true ->
  slashFree (n +:+ ".git") = true /\ n +:+ ".git" <> EmptyString.
Proof.
  intros Hn. split.
  - rewrite slashFree_app, Hn. reflexivity.
  - destruct n; discriminate.
Qed.

End ParserMore.

(** X5: what a returned reference says about the URL.  The URL holds
    [github.com/], then the owner, a slash and a name, where owner and
    name are not empty and hold no slash, and the name runs to the end
    of the URL or to the next slash; the owner is returned as it stands
    and the repo is that name with its first [.git] removed. *)
Theorem parseRepoUrl_returned_reference (url : string)
  (ref : RepositoryReference) :
  parseRepoUrl url = Return ref ->
  exists pre name rest : string,
    url = pre +:+ "github.com/" +:+ owner ref +:+ "/" +:+ name +:+ rest
    /\ owner ref <> EmptyString /\ slashFree (owner ref) = true
    /\ name <> EmptyString /\ slashFree name = true
    /\ endOrSlash rest
    /\ repo ref = Js.replace name ".git" EmptyString.
Proof.
  intros H.
  destruct (parseRepoUrl_Return_inv _ _ H) as (g1 & g2 & Hm & Ho & Hr).
  destruct (urlMatch_Some _ _ _ Hm)
    as (pre & rest & Hurl & Hf1 & Hf2 & Hn1 & Hn2 & Hrest).
  exists pre, g2, rest. rewrite Ho. repeat split; assumption.
Qed.

Lemma parseRepoUrl_returned_reference_witness :
  exists pre name rest : string,
    "https://github.com/octocat/hello.git/tree/main"
    = pre +:+ "github.com/" +:+ "octocat" +:+ "/" +:+ name +:+ rest
    /\ "octocat" <> EmptyString /\ slashFree "octocat" = true
    /\ name <> EmptyString /\ slashFree name = true
    /\ endOrSlash rest
    /\ "hello" = Js.replace name ".git" EmptyString.
Proof.
  apply (parseRepoUrl_returned_reference
           "https://github.com/octocat/hello.git/tree/main"
           {| owner := "octocat"; repo := "hello" |}).
  vm_compute. reflexivity.
Defined.

(** X6: the parser throws exactly on the URLs that hold no occurrence of
    [github.com/] followed by a non-empty owner, a slash and a non-empty
    name; and what it throws is always the error [Invalid GitHub URL]. *)
Theorem parseRepoUrl_throws_iff (url : string) :
  (parseRepoUrl url = Throw (Error "Invalid GitHub URL")
   <-> ~ exists pre o n rest : string,
           url = pre +:+ "github.com/" +:+ o +:+ "/" +:+ n +:+ rest
           /\ o <> EmptyString /\ slashFree o = true
           /\ n <> EmptyString /\ slashFree n = true)
  /\ (forall e : JsError,
        parseRepoUrl url = Throw e -> e = Error "Invalid GitHub URL").
Proof.
  split; [split |].
  - intros Hthrow (pre & o & n & rest & -> & Hno & Hfo & Hnn & Hfn).
    apply parseRepoUrl_Throw_inv in Hthrow as [_ Hnone].
    exact (urlMatch_complete pre o n rest Hfo Hfn Hno Hnn Hnone).
  - intros Hnot.
    destruct (parseRepoUrl url) as [ref | e] eqn:Hp.
    + exfalso. apply Hnot.
      destruct (parseRepoUrl_Return_inv _ _ Hp) as (g1 & g2 & Hm & _).
      destruct (urlMatch_Some _ _ _ Hm)
        as (pre & rest & Hurl & Hf1 & Hf2 & Hn1 & Hn2 & _).
      exists pre, g1, g2, rest. repeat split; assumption.
    + apply parseRepoUrl_Throw_inv in Hp as [-> _]. reflexivity.
  - intros e He. apply parseRepoUrl_Throw_inv in He as [-> _]. reflexivity.
Qed.

(** X7: a web address and the clone address of the same repository give
    the same reference.  For an owner and a name without slash, the name
    without [.git] in it, and a prefix without [g] (a scheme, [www.]),
    the address with the name and the address with the name followed by
    [.git] both give the owner and the name. *)
Theorem parseRepoUrl_clone_address (pre o n : string) :
  charFree "g" pre = true ->
  slashFree o = true -> slashFree n = true ->
  o <> EmptyString -> n <> EmptyString ->
  Js.findFirst ".git" n = None ->
  parseRepoUrl (pre +:+ "github.com/" +:+ o +:+ "/" +:+ n)
  = Return {| owner := o; repo := n |}
  /\ parseRepoUrl (pre +:+ "github.com/" +:+ o +:+ "/" +:+ n +:+ ".git")
     = Return {| owner := o; repo := n |}.
Proof.
  intros Hpre Hfo Hfn Hno Hnn Hgit.
  destruct (git_suffix_name n Hfn) as [Hfg Hng].
  split.
  - rewrite <- (append_empty_r n) at 1.
    rewrite (parseRepoUrl_address pre o n EmptyString Hpre Hfo Hfn Hno Hnn)
      by (left; reflexivity).
    rewrite (proj1 (replace_git_absent n Hgit)). reflexivity.
  - rewrite <- (append_empty_r (n +:+ ".git")).
    rewrite (parseRepoUrl_address pre o (n +:+ ".git") EmptyString
               Hpre Hfo Hfg Hno Hng) by (left; reflexivity).
    rewrite (proj1 (replace_git_trailing n Hgit)). reflexivity.
Qed.

Lemma parseRepoUrl_clone_address_witness :
  parseRepoUrl ("https://www." +:+ "github.com/" +:+ "octocat" +:+ "/"
                +:+ "hello-world")
  = Return {| owner := "octocat"; repo := "hello-world" |}
  /\ parseRepoUrl ("https://www." +:+ "github.com/" +:+ "octocat" +:+ "/"
                   +:+ "hello-world" +:+ ".git")
     = Return {| owner := "octocat"; repo := "hello-world" |}.
Proof.
  apply (parseRepoUrl_clone_address "https://www." "octocat" "hello-world");
    (reflexivity || discriminate).
Defined.

(** X8: what follows the name is ignored.  A further path after the
    name (a slash and anything: a branch, a file, a trailing slash)
    changes nothing to the reference. *)
Theorem parseRepoUrl_ignores_further_path (pre o n path : string) :
  charFree "g" pre = true ->
  slashFree o = true -> slashFree n = true ->
  o <> EmptyString -> n <> EmptyString ->
  parseRepoUrl (pre +:+ "github.com/" +:+ o +:+ "/" +:+ n +:+ "/" +:+ path)
  = parseRepoUrl (pre +:+ "github.com/" +:+ o +:+ "/" +:+ n).
Proof.
  intros Hpre Hfo Hfn Hno Hnn.
  rewrite (parseRepoUrl_address pre o n ("/" +:+ path) Hpre Hfo Hfn Hno Hnn)
    by (right; exists path; reflexivity).
  rewrite <- (append_empty_r n) at 2.
  rewrite (parseRepoUrl_address pre o n EmptyString Hpre Hfo Hfn Hno Hnn)
    by (left; reflexivity).
  reflexivity.
Qed.

Lemma parseRepoUrl_ignores_further_path_witness :
  parseRepoUrl ("https://" +:+ "github.com/" +:+ "octocat" +:+ "/"
                +:+ "hello" +:+ "/" +:+ "tree/main/src")
  = parseRepoUrl ("https://" +:+ "github.com/" +:+ "octocat" +:+ "/"
                  +:+ "hello").
Proof.
  apply (parseRepoUrl_ignores_further_path "https://" "octocat" "hello"
           "tree/main/src"); (reflexivity || discriminate).
Defined.

(** * Further properties of the fetcher *)

Section FetcherMore.

Implicit Types (s pat x y : string) (c : ascii).

Lemma findFirst_at_start pat s r :
  Js.stripPrefix pat s = Some r ->
  Js.findFirst pat s = Some (EmptyString, r).
Proof.
  intros H. destruct s as [| c s].
  - change (Js.findFirst pat EmptyString) with
      (match Js.stripPrefix pat EmptyString with
       | Some rest => Some (EmptyString, rest)
       | None => None
       end).
    rewrite H. reflexivity.
  - rewrite findFirst_cons, H. reflexivity.
Qed.

(** An occurrence is found. *)
Lemma findFirst_complete pat x y :
  Js.findFirst pat (x +:+ pat +:+ y) <> None.
Proof.
  induction x as [| c x IH].
  - rewrite append_nil, (findFirst_at_start _ _ _ (stripPrefix_app pat y)).
    discriminate.
  - rewrite append_cons, findFirst_cons.
    destruct (Js.stripPrefix pat (String c (x +:+ pat +:+ y)));
      [discriminate |].
    destruct (Js.findFirst pat (x +:+ pat +:+ y)) as [[b a] |];
      [discriminate | exact IH].
Qed.

Lemma includes_true_iff s pat :
  Js.includes s pat = true <-> exists x y, s = x +:+ pat +:+ y.
Proof.
  unfold Js.includes. split.
  - destruct (Js.findFirst pat s) as [[b a] |] eqn:Hf; [| discriminate].
    intros _. exists b, a. exact (findFirst_Some _ _ _ _ Hf).
  - intros (x & y & ->).
    pose proof (findFirst_complete pat x y) as H.
    destruct (Js.findFirst pat (x +:+ pat +:+ y)); [reflexivity | congruence].
Qed.

(** A text that holds a pattern holds every part of the pattern. *)
Lemma includes_infix s a pat b :
  Js.includes s (a +:+ pat +:+ b) = true -> Js.includes s pat = true.
Proof.
  rewrite !includes_true_iff. intros (x & y & ->).
  exists (x +:+ a), (b +:+ y). rewrite !append_assoc. reflexivity.
Qed.

Lemma existsb_testIndicators s :
  existsb (fun indicator => Js.includes s indicator) testIndicators
  = Js.includes s "test" || Js.includes s "spec".
Proof.
  unfold testIndicators. cbn [existsb].
  pose proof (includes_infix s EmptyString "test" "s") as H1.
  pose proof (includes_infix s "__" "test" "s__") as H2.
  pose proof (includes_infix s EmptyString "spec" "s") as H3.
  change (EmptyString +:+ "test" +:+ "s") with "tests" in H1.
  change ("__" +:+ "test" +:+ "s__") with "__tests__" in H2.
  change (EmptyString +:+ "spec" +:+ "s") with "specs" in H3.
  destruct (Js.includes s "test"), (Js.includes s "spec");
    cbn [orb]; try reflexivity.
  - destruct (Js.includes s "tests"); [discriminate (H1 eq_refl) |].
    destruct (Js.includes s "__tests__"); [discriminate (H2 eq_refl) |].
    reflexivity.
  - destruct (Js.includes s "tests"); [discriminate (H1 eq_refl) |].
    destruct (Js.includes s "__tests__"); [discriminate (H2 eq_refl) |].
    destruct (Js.includes s "specs"); [discriminate (H3 eq_refl) |].
    reflexivity.
Qed.

End FetcherMore.

(** X9: [checkForTests] answers true exactly when the root listing
    returns a directory with an entry whose lowercased name holds [test]
    or [spec] anywhere in it; the other three indicators never decide.
    A listing that throws, or that answers a single file, gives false. *)
Theorem checkForTests_test_or_spec (octokit : Octokit) (owner repo : string) :
  checkForTests octokit owner repo =
  match repos_getContent octokit owner repo EmptyString with
  | Return (Directory contents) => existsb mentionsTests contents
  | Return (File _) => false
  | Throw _ => false
  end.
Proof.
  unfold checkForTests, mentionsTests.
  destruct (repos_getContent octokit owner repo EmptyString) as [[contents | f] | e];
    try reflexivity.
  induction contents as [| item contents IH]; [reflexivity |].
  cbn [existsb]. rewrite IH. f_equal.
  apply (existsb_testIndicators (Js.toLowerCase item)).
Qed.

(** X10: [checkForCICD] answers true exactly when the contents call
    returns for at least one of the five known paths; when it throws for
    all five, be it because the files are absent or because every call
    fails, the answer is false, and it never throws. *)
Theorem checkForCICD_true_iff (octokit : Octokit) (owner repo : string) :
  (checkForCICD octokit owner repo = true
   <-> exists path : string,
         In path [ ".github/workflows"; ".gitlab-ci.yml"; ".travis.yml";
                   "Jenkinsfile"; ".circleci/config.yml" ]
         /\ returns (repos_getContent octokit owner repo path))
  /\ ((forall path : string,
         exists e : JsError,
           repos_getContent octokit owner repo path = Throw e) ->
      checkForCICD octokit owner repo = false
      /\ checkForTests octokit owner repo = false).
Proof.
  split.
  - unfold checkForCICD. apply probePaths_true.
  - intros Hall. split.
    + unfold checkForCICD. apply probePaths_all_fail.
      intros path _. apply Hall.
    + destruct (Hall EmptyString) as [e He].
      exact (checkForTests_failure _ _ _ _ He).
Qed.

(** X11: what holds of every fetched record.  When the four unguarded
    calls return, the fetch returns an object that reads as a record in
    which the recent commits are between 0 and the total commits, the
    branch and pull-request counts are not negative, the README flag
    tells whether the README call returned, a record without README has
    length 0, the primary language is not empty, and the README length
    is not negative as long as decoded lengths are not. *)
Theorem fetchMetrics_record_invariants
  (octokit : Octokit) (base64Length : string -> Z) (threeMonthsAgo : Z)
  (owner repo : string) :
  returns (repos_get octokit owner repo) ->
  returns (repos_listLanguages octokit owner repo) ->
  returns (repos_listCommits octokit owner repo) ->
  returns (repos_listBranches octokit owner repo) ->
  exists (m : gmap string JsValue) (r : MetricsRecord),
    fetchMetrics octokit base64Length threeMonthsAgo owner repo = Return m
    /\ asRecord m = Some r
    /\ 0 <= recent_commits r <= total_commits r
    /\ 0 <= branch_count r
    /\ 0 <= total_prs r
    /\ (has_readme r = true
        <-> returns (repos_getReadme octokit owner repo))
    /\ (has_readme r = false -> readme_length r = 0)
    /\ primary_language r <> EmptyString
    /\ ((forall content, 0 <= base64Length content) ->
        0 <= readme_length r).
Proof.
  intros [repoData Hg] [langs Hl] [commits Hc] [branches Hb].
  destruct (fetchMetrics_success octokit base64Length threeMonthsAgo
              _ _ _ _ _ _ Hg Hl Hc Hb) as (m & Hm & _ & Hrec).
  exists m. eexists. split; [exact Hm |]. split; [exact Hrec |].
  cbn [recent_commits total_commits branch_count total_prs has_readme
       readme_length primary_language].
  split.
  { pose proof (List.filter_length_le
                  (fun commit => author_date commit >? threeMonthsAgo)
                  commits).
    lia. }
  split; [lia |].
  split; [destruct (pulls_list octokit owner repo); lia |].
  split.
  { destruct (repos_getReadme octokit owner repo) as [readme | e].
    - split; [intros _; apply returns_Return | reflexivity].
    - split; [discriminate | intros Hr; destruct (returns_Throw _ Hr)]. }
  split.
  { destruct (repos_getReadme octokit owner repo);
      [discriminate | reflexivity]. }
  split.
  { unfold languageOrUnknown.
    destruct (language repoData) as [[| c l] |]; discriminate. }
  intros Hlen. destruct (repos_getReadme octokit owner repo); [apply Hlen | lia].
Qed.

Lemma fetchMetrics_record_invariants_witness :
  exists (m : gmap string JsValue) (r : MetricsRecord),
    fetchMetrics bareRepoClient (fun _ => 0) 1650000000000
      "octocat" "hello" = Return m
    /\ asRecord m = Some r
    /\ 0 <= recent_commits r <= total_commits r
    /\ 0 <= branch_count r
    /\ 0 <= total_prs r
    /\ (has_readme r = true
        <-> returns (repos_getReadme bareRepoClient "octocat" "hello"))
    /\ (has_readme r = false -> readme_length r = 0)
    /\ primary_language r <> EmptyString
    /\ ((forall content : string, 0 <= (fun _ : string => 0) content) ->
        0 <= readme_length r).
Proof.
  apply (fetchMetrics_record_invariants bareRepoClient (fun _ => 0)
           1650000000000 "octocat" "hello");
    simpl; eexists; reflexivity.
Defined.

(** * Further properties of the insight generator *)

Section OccurrenceFacts.

Implicit Types (s pat a x r : string) (c d : ascii).

(** A pattern that does not hold [c] cannot match across a [c]. *)
Lemma stripPrefix_sep pat a c x :
  charFree c pat = true ->
  Js.stripPrefix pat (a +:+ String c x) =
  match Js.stripPrefix pat a with
  | Some r => Some (r +:+ String c x)
  | None => None
  end.
Proof.
  revert a. induction pat as [| p pat IH]; intros a Hfree; [reflexivity |].
  cbn [charFree] in Hfree. apply andb_prop in Hfree as [Hp Hpat].
  apply negb_true_iff in Hp.
  destruct a as [| d a].
  - rewrite append_nil. cbn [Js.stripPrefix]. rewrite Hp. reflexivity.
  - rewrite append_cons. cbn [Js.stripPrefix].
    destruct (Ascii.eqb p d); [apply IH; exact Hpat | reflexivity].
Qed.

Lemma findFirst_skip_char p pat c x :
  charFree c (String p pat) = true ->
  Js.findFirst (String p pat) (String c x) =
  match Js.findFirst (String p pat) x with
  | Some (before, after) => Some (String c before, after)
  | None => None
  end.
Proof.
  intros Hfree. rewrite findFirst_cons.
  cbn [charFree] in Hfree. apply andb_prop in Hfree as [Hp _].
  apply negb_true_iff in Hp. cbn [Js.stripPrefix]. rewrite Hp. reflexivity.
Qed.

(** So its first occurrence in a text cut by [c] is in the part before
    [c], or else in the part after it. *)
Lemma findFirst_sep p pat a c x :
  charFree c (String p pat) = true ->
  Js.findFirst (String p pat) (a +:+ String c x) =
  match Js.findFirst (String p pat) a with
  | Some (before, after) => Some (before, after +:+ String c x)
  | None =>
      match Js.findFirst (String p pat) x with
      | Some (before, after) => Some (a +:+ String c before, after)
      | None => None
      end
  end.
Proof.
  intros Hfree. induction a as [| d a IH].
  - rewrite !append_nil, (findFirst_skip_char _ _ _ _ Hfree).
    change (Js.findFirst (String p pat) EmptyString) with
      (@None (string * string)).
    cbv iota.
    destruct (Js.findFirst (String p pat) x) as [[b r] |]; reflexivity.
  - rewrite append_cons, !findFirst_cons.
    change (String d (a +:+ String c x)) with (String d a +:+ String c x).
    rewrite (stripPrefix_sep _ (String d a) _ _ Hfree).
    destruct (Js.stripPrefix (String p pat) (String d a)) as [r |];
      [reflexivity |].
    rewrite IH.
    destruct (Js.findFirst (String p pat) a) as [[b r] |]; [reflexivity |].
    destruct (Js.findFirst (String p pat) x) as [[b r] |]; reflexivity.
Qed.

End OccurrenceFacts.

Section TrimFacts.

Implicit Types (s a b : string) (c : ascii).

Lemma trimEnd_app a b :
  Js.isEmpty (Js.trimEnd b) = false ->
  Js.trimEnd (a +:+ b) = a +:+ Js.trimEnd b.
Proof.
  intros Hb. induction a as [| c a IH]; [reflexivity |].
  rewrite !append_cons, trimEnd_cons, IH.
  destruct (a +:+ Js.trimEnd b) as [| d t] eqn:Hab.
  - destruct a; [rewrite append_nil in Hab; rewrite Hab in Hb |];
      discriminate.
  - cbn [Js.isEmpty]. rewrite andb_false_r. reflexivity.
Qed.

Lemma trimEnd_app_whitespace a c :
  Js.isWhiteSpace c = true ->
  Js.trimEnd (a +:+ String c EmptyString) = Js.trimEnd a.
Proof.
  intros Hc. induction a as [| d a IH].
  - rewrite append_nil, trimEnd_cons, Hc. reflexivity.
  - rewrite append_cons, !trimEnd_cons, IH. reflexivity.
Qed.

Lemma trimEnd_idempotent s : Js.trimEnd (Js.trimEnd s) = Js.trimEnd s.
Proof.
  induction s as [| c s IH]; [reflexivity |].
  rewrite trimEnd_cons.
  destruct (Js.isWhiteSpace c && Js.isEmpty (Js.trimEnd s)) eqn:Hc;
    [reflexivity |].
  rewrite trimEnd_cons, IH, Hc. reflexivity.
Qed.

Lemma trim_idempotent s : Js.trim (Js.trim s) = Js.trim s.
Proof.
  unfold Js.trim.
  rewrite (trimEnd_trimStart (Js.trimEnd (Js.trimStart s))).
  rewrite trimEnd_idempotent, (trimEnd_trimStart s).
  apply trimStart_idempotent.
Qed.

(** A trimmed text is trimmed at both ends. *)
Lemma trimmed_both_ends s :
  Js.trim s = s -> Js.trimStart s = s /\ Js.trimEnd s = s.
Proof.
  intros H. assert (Hs : Js.trimStart s = s).
  { rewrite <- H at 1. unfold Js.trim.
    rewrite <- trimEnd_trimStart, trimStart_idempotent. exact H. }
  split; [exact Hs |]. unfold Js.trim in H. rewrite Hs in H. exact H.
Qed.

Lemma trim_then_line_feed s :
  Js.trim s = s -> Js.trim (s +:+ Js.nl) = s.
Proof.
  intros H. destruct (trimmed_both_ends s H) as [Hs He].
  unfold Js.trim. rewrite trimStart_app, Hs.
  destruct s as [| c s]; [reflexivity |]. cbn [Js.isEmpty].
  unfold Js.nl. rewrite trimEnd_app_whitespace by reflexivity. exact He.
Qed.

End TrimFacts.

Section RoundTrip.

Implicit Types (text item : string) (items : list string).

Lemma bullet_without_marker item :
  Js.findFirst "ROADMAP:" item = None ->
  Js.findFirst "ROADMAP:" (bullet item) = None.
Proof.
  intros H. unfold bullet.
  change ("- " +:+ item) with ("-" +:+ String " " item).
  rewrite findFirst_sep by reflexivity.
  change (Js.findFirst "ROADMAP:" "-") with (@None (string * string)).
  cbv iota. rewrite H. reflexivity.
Qed.

Lemma bullets_without_marker items :
  Forall (fun item => Js.findFirst "ROADMAP:" item = None) items ->
  Js.findFirst "ROADMAP:" (Js.join Js.nl (map bullet items)) = None.
Proof.
  induction 1 as [| item items Hitem Hitems IH]; [reflexivity |].
  destruct items as [| item' items].
  - apply bullet_without_marker. exact Hitem.
  - change (Js.join Js.nl (map bullet (item :: item' :: items))) with
      (bullet item
       +:+ String Js.LF (Js.join Js.nl (map bullet (item' :: items)))).
    rewrite findFirst_sep by reflexivity.
    rewrite (bullet_without_marker _ Hitem), IH. reflexivity.
Qed.

Lemma bullets_trimmed items :
  Forall plainItem items ->
  Js.trim (Js.join Js.nl (map bullet items))
  = Js.join Js.nl (map bullet items).
Proof.
  intros Hall. destruct items as [| item0 items0] eqn:Hitems;
    [reflexivity |].
  rewrite <- Hitems in *.
  assert (Hend : Js.trimEnd (Js.join Js.nl (map bullet items))
                 = Js.join Js.nl (map bullet items)
                 /\ exists t, Js.join Js.nl (map bullet items) = String "-" t).
  { assert (Hne : items <> []) by (rewrite Hitems; discriminate).
    clear Hitems. induction Hall as [| item items (Hn & Htrim & _) Hrest IH];
      [congruence |].
    destruct (trimmed_both_ends _ Htrim) as [_ He].
    assert (Hb : Js.trimEnd (bullet item) = bullet item).
    { unfold bullet. rewrite trimEnd_app, He; [reflexivity |].
      rewrite He. destruct item; [congruence | reflexivity]. }
    destruct items as [| item' items].
    - split; [exact Hb | eexists; reflexivity].
    - destruct IH as [IHe [t Ht]]; [discriminate |].
      change (Js.join Js.nl (map bullet (item :: item' :: items))) with
        (bullet item +:+ Js.nl
         +:+ Js.join Js.nl (map bullet (item' :: items))).
      split; [| eexists; reflexivity].
      rewrite trimEnd_app; [rewrite trimEnd_app |].
      + rewrite IHe. reflexivity.
      + rewrite IHe, Ht. reflexivity.
      + rewrite trimEnd_app; rewrite IHe, Ht; reflexivity. }
  destruct Hend as [He [t Ht]].
  unfold Js.trim. rewrite Ht at 1. rewrite trimStart_cons.
  change (Js.isWhiteSpace "-") with false. cbv iota.
  rewrite <- Ht. exact He.
Qed.

(** The reply in the requested format, cut at its marker. *)
Lemma formattedReply_marker text items :
  Js.findFirst "ROADMAP:" text = None ->
  Forall (fun item => Js.findFirst "ROADMAP:" item = None) items ->
  Js.findFirst "ROADMAP:" (formattedReply text items)
  = Some ("SUMMARY: " +:+ text +:+ Js.nl,
          Js.nl +:+ Js.join Js.nl (map bullet items))
  /\ Js.findFirst "ROADMAP:" (Js.nl +:+ Js.join Js.nl (map bullet items))
     = None.
Proof.
  intros Htext Hitems.
  assert (Hafter : Js.findFirst "ROADMAP:"
                     (Js.nl +:+ Js.join Js.nl (map bullet items)) = None).
  { change (Js.nl +:+ Js.join Js.nl (map bullet items)) with
      (String Js.LF (Js.join Js.nl (map bullet items))).
    rewrite findFirst_skip_char by reflexivity.
    rewrite (bullets_without_marker _ Hitems). reflexivity. }
  split; [| exact Hafter].
  assert (Hbefore : Js.findFirst "ROADMAP:" ("SUMMARY: " +:+ text) = None).
  { change ("SUMMARY: " +:+ text) with ("SUMMARY:" +:+ String " " text).
    rewrite findFirst_sep by reflexivity.
    change (Js.findFirst "ROADMAP:" "SUMMARY:")
      with (@None (string * string)).
    cbv iota. rewrite Htext. reflexivity. }
  unfold formattedReply.
  rewrite <- (append_assoc "SUMMARY: " text).
  change (Js.nl +:+ "ROADMAP:" +:+ Js.nl
          +:+ Js.join Js.nl (map bullet items)) with
    (String Js.LF
       ("ROADMAP:" +:+ Js.nl +:+ Js.join Js.nl (map bullet items))).
  rewrite findFirst_sep by reflexivity. rewrite Hbefore.
  rewrite (findFirst_at_start _ _ _
             (stripPrefix_app "ROADMAP:"
                (Js.nl +:+ Js.join Js.nl (map bullet items)))).
  rewrite append_assoc. reflexivity.
Qed.

Lemma parseResponse_formattedReply text items :
  Js.trim text = text ->
  Js.findFirst "ROADMAP:" text = None ->
  Forall plainItem items ->
  Forall (fun item => Js.findFirst "ROADMAP:" item = None) items ->
  parseResponse (formattedReply text items)
  = Return {| summary := text; roadmap := items |}.
Proof.
  intros Htrim Htext Hplain Hitems.
  destruct (formattedReply_marker text items Htext Hitems) as [Hm Ha].
  rewrite parseResponse_eq. unfold beforeMarker, roadmapTextOf.
  rewrite Hm, Ha. f_equal. f_equal.
  - unfold Js.replace.
    change ("SUMMARY: " +:+ text +:+ Js.nl) with
      ("SUMMARY:" +:+ String " " (text +:+ Js.nl)).
    rewrite (findFirst_at_start _ _ _
               (stripPrefix_app "SUMMARY:" (String " " (text +:+ Js.nl)))).
    rewrite !append_nil.
    change (Js.trim (String " " (text +:+ Js.nl)))
      with (Js.trim (text +:+ Js.nl)).
    apply trim_then_line_feed. exact Htrim.
  - change (Js.trim (Js.nl +:+ Js.join Js.nl (map bullet items)))
      with (Js.trim (Js.join Js.nl (map bullet items))).
    rewrite (bullets_trimmed _ Hplain).
    apply roadmapItems_bullets. exact Hplain.
Qed.

End RoundTrip.

Section OutputFacts.

Implicit Types (s text line item : string) (c d : ascii).

Lemma findFirst_nl_charFree s :
  Js.findFirst Js.nl s = None <-> charFree Js.LF s = true.
Proof.
  induction s as [| d s IH]; [split; reflexivity |].
  rewrite findFirst_nl_cons. cbn [charFree].
  destruct (Ascii.eqb d Js.LF); cbn [negb andb]; [split; discriminate |].
  rewrite <- IH.
  destruct (Js.findFirst Js.nl s) as [[b a] |]; split;
    (reflexivity || discriminate).
Qed.

Lemma linesOf_charFree s line :
  In line (linesOf s) -> charFree Js.LF line = true.
Proof.
  revert line. induction s as [| d s IH]; intros line.
  - intros [<- | []]. reflexivity.
  - rewrite linesOf_cons. destruct (Ascii.eqb d Js.LF) eqn:Hd.
    + intros [<- | Hin]; [reflexivity | exact (IH _ Hin)].
    + destruct (linesOf_nonempty s) as (h & t & Hl). rewrite Hl in *.
      intros [<- | Hin].
      * rewrite append_cons, append_nil. cbn [charFree].
        rewrite Hd, (IH h) by (left; reflexivity). reflexivity.
      * apply IH. right. exact Hin.
Qed.

Lemma charFree_trimStart c s :
  charFree c s = true -> charFree c (Js.trimStart s) = true.
Proof.
  induction s as [| d s IH]; [reflexivity |].
  intros H. rewrite trimStart_cons.
  destruct (Js.isWhiteSpace d); [| exact H].
  cbn [charFree] in H. apply andb_prop in H as [_ H]. exact (IH H).
Qed.

Lemma charFree_trimEnd c s :
  charFree c s = true -> charFree c (Js.trimEnd s) = true.
Proof.
  induction s as [| d s IH]; [reflexivity |].
  intros H. cbn [charFree] in H. apply andb_prop in H as [Hd H].
  rewrite trimEnd_cons.
  destruct (Js.isWhiteSpace d && Js.isEmpty (Js.trimEnd s)); [reflexivity |].
  cbn [charFree]. rewrite Hd, (IH H). reflexivity.
Qed.

(** The expression either leaves the line alone or removes its first
    character, a hyphen, and the whitespace after it. *)
Lemma replaceLeadingDash_cases line :
  Js.replaceLeadingDash line = line
  \/ exists r, line = String "-" r /\ Js.replaceLeadingDash line = Js.trimStart r.
Proof.
  destruct line as [| d r]; [left; reflexivity |].
  destruct (Ascii.eqb_spec d "-") as [-> | Hd].
  - right. exists r. split; reflexivity.
  - left. destruct d as [[] [] [] [] [] [] [] []]; try reflexivity.
    congruence.
Qed.

Lemma charFree_replaceLeadingDash c line :
  charFree c line = true -> charFree c (Js.replaceLeadingDash line) = true.
Proof.
  intros H. destruct (replaceLeadingDash_cases line) as [-> | (r & -> & ->)];
    [exact H |].
  cbn [charFree] in H. apply andb_prop in H as [_ H].
  apply charFree_trimStart. exact H.
Qed.

(** Every item of a parsed roadmap is plain. *)
Lemma roadmapItems_plain text : Forall plainItem (roadmapItems text).
Proof.
  apply List.Forall_forall. intros item Hin. unfold roadmapItems in Hin.
  apply List.filter_In in Hin as [Hin Hlen].
  apply List.in_map_iff in Hin as (line & <- & Hline).
  apply List.filter_In in Hline as [Hline _].
  rewrite split_lines in Hline. apply linesOf_charFree in Hline.
  split; [| split].
  - intros H0. rewrite H0 in Hlen. discriminate.
  - apply trim_idempotent.
  - apply findFirst_nl_charFree. unfold Js.trim.
    apply charFree_trimEnd, charFree_trimStart, charFree_replaceLeadingDash.
    exact Hline.
Qed.

(** Every item of the fallback roadmap is plain. *)
Lemma fallbackRoadmap_plain (metrics : MetricsRecord) :
  Forall plainItem (fallbackRoadmap metrics).
Proof.
  unfold fallbackRoadmap.
  destruct (has_readme metrics), (has_tests metrics), (has_cicd metrics),
    (recent_commits metrics <? 10), (branch_count metrics <=? 1);
    cbn [negb];
    repeat (constructor;
            [split; [discriminate | split; vm_compute; reflexivity] |]);
    constructor.
Qed.

Lemma trim_between a mid b :
  Js.trimStart a = a -> a <> EmptyString ->
  Js.trimEnd b = b -> b <> EmptyString ->
  Js.trim (a +:+ mid +:+ b) = a +:+ mid +:+ b.
Proof.
  intros Ha Hna Hb Hnb. unfold Js.trim.
  rewrite trimStart_app, Ha.
  destruct a as [| c a]; [congruence |]. cbn [Js.isEmpty].
  assert (Hbe : Js.isEmpty (Js.trimEnd b) = false)
    by (rewrite Hb; destruct b; [congruence | reflexivity]).
  rewrite trimEnd_app; [rewrite trimEnd_app, Hb by exact Hbe; reflexivity |].
  rewrite trimEnd_app, Hb by exact Hbe.
  destruct mid; [| reflexivity].
  rewrite append_nil. destruct b; [congruence | reflexivity].
Qed.

(** The fallback summary has no whitespace at its ends. *)
Lemma fallbackSummary_trimmed (metrics : MetricsRecord) (score : Z) :
  Js.trim (fallbackSummary metrics score) = fallbackSummary metrics score.
Proof.
  unfold fallbackSummary.
  destruct (score >? 70); [| destruct (score >? 40)].
  - destruct (has_tests metrics).
    + apply (trim_between _ (Js.ofNumber (total_commits metrics))
               " commits and testing."); (reflexivity || discriminate).
    + apply (trim_between _ (Js.ofNumber (total_commits metrics))
               " commits and active development.");
        (reflexivity || discriminate).
  - destruct (has_readme metrics), (has_tests metrics);
      vm_compute; reflexivity.
  - destruct (has_readme metrics), (has_tests metrics);
      vm_compute; reflexivity.
Qed.

(** The two ways the generator returns. *)
Lemma generateAIInsights_Return_inv
  (generateContent : string -> completion string)
  (metrics : MetricsRecord) (score : Z) (insights : InsightResult) :
  generateAIInsights generateContent metrics score = Return insights ->
  (exists reply,
     generateContent (prompt metrics score) = Return reply
     /\ insights =
        {| summary :=
             Js.trim (Js.replace (beforeMarker reply) "SUMMARY:" EmptyString);
           roadmap := roadmapItems (roadmapTextOf reply) |})
  \/ (exists e,
        generateContent (prompt metrics score) = Throw e
        /\ insights = fallback metrics score).
Proof.
  destruct (generateContent (prompt metrics score)) as [reply | e0] eqn:H.
  - rewrite (generateAIInsights_reply _ _ _ _ H), parseResponse_eq.
    intros [= <-]. left. exists reply. split; reflexivity.
  - rewrite (generateAIInsights_thrown _ _ _ _ H).
    intros [= <-]. right. exists e0. split; reflexivity.
Qed.

(** Whatever it returns is well formed. *)
Lemma generateAIInsights_Return_plain
  (generateContent : string -> completion string)
  (metrics : MetricsRecord) (score : Z) (insights : InsightResult) :
  generateAIInsights generateContent metrics score = Return insights ->
  Js.trim (summary insights) = summary insights
  /\ Forall plainItem (roadmap insights).
Proof.
  intros H.
  destruct (generateAIInsights_Return_inv _ _ _ _ H)
    as [(reply & _ & ->) | (e & _ & ->)]; cbn [summary roadmap fallback].
  - split; [apply trim_idempotent | apply roadmapItems_plain].
  - split; [apply fallbackSummary_trimmed | apply fallbackRoadmap_plain].
Qed.

End OutputFacts.

(** X12: a reply in the requested format is read back exactly.  For a
    summary text without whitespace at its ends and items that are not
    empty, trimmed and on one line, none holding the marker, the reply
    made of the [SUMMARY:] line, the marker line and one bullet per item
    gives that summary and those items, as many and in that order,
    whatever their number. *)
Theorem generateAIInsights_formatted_reply
  (generateContent : string -> completion string)
  (metrics : MetricsRecord) (score : Z)
  (text : string) (items : list string) :
  generateContent (prompt metrics score)
    = Return (formattedReply text items) ->
  Js.trim text = text ->
  Js.findFirst "ROADMAP:" text = None ->
  Forall plainItem items ->
  Forall (fun item => Js.findFirst "ROADMAP:" item = None) items ->
  generateAIInsights generateContent metrics score
  = Return {| summary := text; roadmap := items |}.
Proof.
  intros Hreply Htrim Htext Hplain Hitems.
  rewrite (generateAIInsights_reply _ _ _ _ Hreply).
  apply parseResponse_formattedReply; assumption.
Qed.

Lemma generateAIInsights_formatted_reply_witness :
  generateAIInsights
    (fun _ => Return (formattedReply "Small but tidy."
                        ["Write a README"; "Add tests"]))
    emptyMetrics 5
  = Return {| summary := "Small but tidy.";
              roadmap := ["Write a README"; "Add tests"] |}.
Proof.
  apply (generateAIInsights_formatted_reply
           (fun _ => Return (formattedReply "Small but tidy."
                               ["Write a README"; "Add tests"]))
           emptyMetrics 5 "Small but tidy." ["Write a README"; "Add tests"]).
  - reflexivity.
  - vm_compute. reflexivity.
  - vm_compute. reflexivity.
  - repeat constructor; (discriminate || (vm_compute; reflexivity)).
  - repeat constructor.
Defined.

(** X13: the generator never throws, and what it returns is well formed
    whatever the model does: the summary has no whitespace at its ends,
    and every roadmap item is not empty, has no whitespace at its ends
    and holds no line feed.  When the call throws, the result is the
    fallback, with six items. *)
Theorem generateAIInsights_well_formed
  (generateContent : string -> completion string)
  (metrics : MetricsRecord) (score : Z) :
  exists insights : InsightResult,
    generateAIInsights generateContent metrics score = Return insights
    /\ Js.trim (summary insights) = summary insights
    /\ Forall plainItem (roadmap insights)
    /\ (forall e : JsError,
          generateContent (prompt metrics score) = Throw e ->
          insights = fallback metrics score
          /\ length (roadmap insights) = 6%nat).
Proof.
  destruct (generateAIInsights_returns generateContent metrics score)
    as [insights Hi].
  exists insights. split; [exact Hi |].
  destruct (generateAIInsights_Return_plain _ _ _ _ Hi) as [Hs Hr].
  split; [exact Hs |]. split; [exact Hr |].
  intros e He.
  destruct (generateAIInsights_Return_inv _ _ _ _ Hi)
    as [(reply & Hreply & _) | (e' & _ & ->)]; [congruence |].
  split; reflexivity.
Qed.

(** * Further properties of the orchestrator and of the request boundary *)

Section OrchestratorMore.

Variable octokit : Octokit.
Variable base64Length : string -> Z.
Variable threeMonthsAgo : Z.
Variable generateContent : string -> completion string.

Lemma analyzeRepository_parse_failure url e :
  parseRepoUrl url = Throw e ->
  analyzeRepository octokit base64Length threeMonthsAgo generateContent url
  = Throw (Error ("Analysis failed: " +:+ message e)).
Proof.
  intros H. unfold analyzeRepository, try_catch, bind. rewrite H.
  reflexivity.
Qed.

Lemma analyzeRepository_fetch_failure url ref e :
  parseRepoUrl url = Return ref ->
  fetchMetrics octokit base64Length threeMonthsAgo (owner ref) (repo ref)
    = Throw e ->
  analyzeRepository octokit base64Length threeMonthsAgo generateContent url
  = Throw (Error ("Analysis failed: " +:+ message e)).
Proof.
  intros Hp Hf. unfold analyzeRepository, try_catch, bind.
  rewrite Hp, Hf. reflexivity.
Qed.

(** Once the URL is parsed and the metrics are fetched, the analysis
    returns: the score of the record, and the insights of the
    generator. *)
Lemma analyzeRepository_fetched url ref m :
  parseRepoUrl url = Return ref ->
  fetchMetrics octokit base64Length threeMonthsAgo (owner ref) (repo ref)
    = Return m ->
  exists r insights,
    asRecord m = Some r
    /\ generateAIInsights generateContent r (calculateScore r)
       = Return insights
    /\ analyzeRepository octokit base64Length threeMonthsAgo
         generateContent url
       = Return {| Analysis.score := calculateScore r;
                   Analysis.summary := summary insights;
                   Analysis.roadmap := roadmap insights;
                   Analysis.metrics := m |}.
Proof.
  intros Hp Hf.
  destruct (fetchMetrics_typed _ _ _ _ _ _ Hf) as [_ [r Hr]].
  destruct (generateAIInsights_returns generateContent r (calculateScore r))
    as [insights Hi].
  exists r, insights. split; [exact Hr |]. split; [exact Hi |].
  unfold analyzeRepository, try_catch, bind.
  rewrite Hp, Hf, Hr, Hi. reflexivity.
Qed.


End OrchestratorMore.

Section BoundaryFacts.

Implicit Types (url : string).

Lemma includes_nonempty url :
  Js.includes url "github.com" = true -> Js.isEmpty url = false.
Proof. destruct url; [discriminate | reflexivity]. Qed.

(** A URL the parser accepts holds the host name. *)
Lemma parsed_includes_host url ref :
  parseRepoUrl url = Return ref -> Js.includes url "github.com" = true.
Proof.
  intros H.
  destruct (parseRepoUrl_Return_inv _ _ H) as (g1 & g2 & Hm & _).
  destruct (urlMatch_Some _ _ _ Hm) as (pre & rest & -> & _).
  apply includes_true_iff.
  exists pre, ("/" +:+ g1 +:+ "/" +:+ g2 +:+ rest). reflexivity.
Qed.

End BoundaryFacts.

(** X14: the analysis returns exactly when the URL is parsed and the
    four unguarded calls return for the parsed owner and name; the
    README, the pull requests, the probes and the generative model have
    no say in it. *)
Theorem analyzeRepository_returns_iff
  (octokit : Octokit) (base64Length : string -> Z) (threeMonthsAgo : Z)
  (generateContent : string -> completion string) (repoUrl : string) :
  returns (analyzeRepository octokit base64Length threeMonthsAgo
             generateContent repoUrl)
  <-> exists ref : RepositoryReference,
        parseRepoUrl repoUrl = Return ref
        /\ returns (repos_get octokit (owner ref) (repo ref))
        /\ returns (repos_listLanguages octokit (owner ref) (repo ref))
        /\ returns (repos_listCommits octokit (owner ref) (repo ref))
        /\ returns (repos_listBranches octokit (owner ref) (repo ref)).
Proof.
  split.
  - intros Hret.
    destruct (parseRepoUrl repoUrl) as [ref | e] eqn:Hp.
    + destruct (fetchMetrics octokit base64Length threeMonthsAgo
                  (owner ref) (repo ref)) as [m | e] eqn:Hf.
      * exists ref. split; [reflexivity |].
        destruct (fetchMetrics_Return_inv _ _ _ _ _ _ Hf)
          as (repoData & langs & commits & branches & Hg & Hl & Hc & Hb).
        rewrite Hg, Hl, Hc, Hb. repeat split; apply returns_Return.
      * rewrite (analyzeRepository_fetch_failure _ _ _ _ _ _ _ Hp Hf)
          in Hret.
        destruct (returns_Throw _ Hret).
    + rewrite (analyzeRepository_parse_failure _ _ _ _ _ _ Hp) in Hret.
      destruct (returns_Throw _ Hret).
  - intros (ref & Hp & [repoData Hg] & [langs Hl] & [commits Hc]
            & [branches Hb]).
    destruct (fetchMetrics_success octokit base64Length threeMonthsAgo
                _ _ _ _ _ _ Hg Hl Hc Hb) as (m & Hm & _).
    destruct (analyzeRepository_fetched octokit base64Length threeMonthsAgo
                generateContent _ _ _ Hp Hm) as (r & insights & _ & _ & Ha).
    rewrite Ha. apply returns_Return.
Qed.

(** X15: what a returned analysis holds.  When the URL is parsed and the
    four unguarded calls return, the result has a score between 5 and
    100, a metrics object with exactly the fifteen keys, a summary
    without whitespace at its ends and a roadmap of items that are not
    empty, trimmed and on one line; and with a model that always throws
    the roadmap has the six items of the fallback. *)
Theorem analyzeRepository_result
  (octokit : Octokit) (base64Length : string -> Z) (threeMonthsAgo : Z)
  (generateContent : string -> completion string) (repoUrl : string)
  (ref : RepositoryReference) :
  parseRepoUrl repoUrl = Return ref ->
  returns (repos_get octokit (owner ref) (repo ref)) ->
  returns (repos_listLanguages octokit (owner ref) (repo ref)) ->
  returns (repos_listCommits octokit (owner ref) (repo ref)) ->
  returns (repos_listBranches octokit (owner ref) (repo ref)) ->
  exists result : Analysis.t,
    analyzeRepository octokit base64Length threeMonthsAgo
      generateContent repoUrl = Return result
    /\ 5 <= Analysis.score result <= 100
    /\ dom (Analysis.metrics result) = metricsKeys
    /\ Js.trim (Analysis.summary result) = Analysis.summary result
    /\ Forall plainItem (Analysis.roadmap result)
    /\ ((forall p : string, exists e : JsError,
           generateContent p = Throw e) ->
        length (Analysis.roadmap result) = 6%nat).
Proof.
  intros Hp [repoData Hg] [langs Hl] [commits Hc] [branches Hb].
  destruct (fetchMetrics_success octokit base64Length threeMonthsAgo
              _ _ _ _ _ _ Hg Hl Hc Hb) as (m & Hm & Hdom & _).
  destruct (analyzeRepository_fetched octokit base64Length threeMonthsAgo
              generateContent _ _ _ Hp Hm) as (r & insights & _ & Hi & Ha).
  eexists. split; [exact Ha |].
  cbn [Analysis.score Analysis.metrics Analysis.summary Analysis.roadmap].
  destruct (generateAIInsights_Return_plain _ _ _ _ Hi) as [Hs Hr].
  split.
  { rewrite calculateScore_total. pose proof (total_range r). lia. }
  split; [exact Hdom |]. split; [exact Hs |]. split; [exact Hr |].
  intros Hfail.
  destruct (generateAIInsights_Return_inv _ _ _ _ Hi)
    as [(reply & Hreply & _) | (e & _ & ->)]; [| reflexivity].
  destruct (Hfail (prompt r (calculateScore r))) as [e He]. congruence.
Qed.

Lemma analyzeRepository_result_witness :
  exists result : Analysis.t,
    analyzeRepository bareRepoClient (fun _ => 0) 1650000000000
      failingModel "https://github.com/octocat/hello" = Return result
    /\ 5 <= Analysis.score result <= 100
    /\ dom (Analysis.metrics result) = metricsKeys
    /\ Js.trim (Analysis.summary result) = Analysis.summary result
    /\ Forall plainItem (Analysis.roadmap result)
    /\ ((forall p : string, exists e : JsError, failingModel p = Throw e) ->
        length (Analysis.roadmap result) = 6%nat).
Proof.
  apply (analyzeRepository_result bareRepoClient (fun _ => 0) 1650000000000
           failingModel "https://github.com/octocat/hello"
           {| owner := "octocat"; repo := "hello" |});
    [vm_compute; reflexivity | simpl; eexists; reflexivity ..].
Defined.

(** X16: the clone address of a repository is analysed as its web
    address.  For an owner and a name without slash, the name without
    [.git] in it, and a prefix without [g], the URL with [.git] after the
    name gives the very same outcome as the URL without it. *)
Theorem analyzeRepository_clone_address
  (octokit : Octokit) (base64Length : string -> Z) (threeMonthsAgo : Z)
  (generateContent : string -> completion string) (pre o n : string) :
  charFree "g" pre = true ->
  slashFree o = true -> slashFree n = true ->
  o <> EmptyString -> n <> EmptyString ->
  Js.findFirst ".git" n = None ->
  analyzeRepository octokit base64Length threeMonthsAgo generateContent
    (pre +:+ "github.com/" +:+ o +:+ "/" +:+ n +:+ ".git")
  = analyzeRepository octokit base64Length threeMonthsAgo generateContent
      (pre +:+ "github.com/" +:+ o +:+ "/" +:+ n).
Proof.
  intros Hpre Hfo Hfn Hno Hnn Hgit.
  destruct (git_suffix_name n Hfn) as [Hfg Hng].
  assert (H1 : parseRepoUrl (pre +:+ "github.com/" +:+ o +:+ "/" +:+ n)
               = Return {| owner := o; repo := n |}).
  { rewrite <- (append_empty_r n) at 1.
    rewrite (parseRepoUrl_address pre o n EmptyString Hpre Hfo Hfn Hno Hnn)
      by (left; reflexivity).
    rewrite (proj1 (replace_git_absent n Hgit)). reflexivity. }
  assert (H2 : parseRepoUrl
                 (pre +:+ "github.com/" +:+ o +:+ "/" +:+ n +:+ ".git")
               = Return {| owner := o; repo := n |}).
  { rewrite <- (append_empty_r (n +:+ ".git")).
    rewrite (parseRepoUrl_address pre o (n +:+ ".git") EmptyString
               Hpre Hfo Hfg Hno Hng) by (left; reflexivity).
    rewrite (proj1 (replace_git_trailing n Hgit)). reflexivity. }
  unfold analyzeRepository. rewrite H1, H2. reflexivity.
Qed.

Lemma analyzeRepository_clone_address_witness :
  analyzeRepository bareRepoClient (fun _ => 0) 1650000000000 failingModel
    ("https://" +:+ "github.com/" +:+ "octocat" +:+ "/" +:+ "hello"
     +:+ ".git")
  = analyzeRepository bareRepoClient (fun _ => 0) 1650000000000 failingModel
      ("https://" +:+ "github.com/" +:+ "octocat" +:+ "/" +:+ "hello").
Proof.
  apply (analyzeRepository_clone_address bareRepoClient (fun _ => 0)
           1650000000000 failingModel "https://" "octocat" "hello");
    (reflexivity || discriminate).
Defined.

(** On a body without [repo_url] or with a string, the handler is
    [postAnalyze]. *)
Lemma handleAnalyze_text
  (octokit : Octokit) (base64Length : string -> Z) (threeMonthsAgo : Z)
  (generateContent : string -> completion string) (url : string) :
  handleAnalyze octokit base64Length threeMonthsAgo generateContent
    (Text url)
  = postAnalyze octokit base64Length threeMonthsAgo generateContent
      (Some url)
  /\ handleAnalyze octokit base64Length threeMonthsAgo generateContent
       Undefined
     = postAnalyze octokit base64Length threeMonthsAgo generateContent None.
Proof.
  split; [| reflexivity].
  unfold handleAnalyze, postAnalyze, bind. cbn [truthy includesHost].
  destruct (Js.isEmpty url); cbn [negb]; [reflexivity |].
  destruct (Js.includes url "github.com"); cbn [negb]; [| reflexivity].
  cbn [analyzeValue].
  destruct (analyzeRepository octokit base64Length threeMonthsAgo
              generateContent url); reflexivity.
Qed.


(** X18: a request is answered 200 exactly when it carries a URL that
    the parser accepts and the four unguarded calls return for its owner
    and name: the check for the host name in the handler refuses no URL
    that the parser would accept. *)
Theorem postAnalyze_200_iff
  (octokit : Octokit) (base64Length : string -> Z) (threeMonthsAgo : Z)
  (generateContent : string -> completion string)
  (repo_url : option string) :
  status (postAnalyze octokit base64Length threeMonthsAgo generateContent
            repo_url) = 200
  <-> exists (url : string) (ref : RepositoryReference),
        repo_url = Some url
        /\ parseRepoUrl url = Return ref
        /\ returns (repos_get octokit (owner ref) (repo ref))
        /\ returns (repos_listLanguages octokit (owner ref) (repo ref))
        /\ returns (repos_listCommits octokit (owner ref) (repo ref))
        /\ returns (repos_listBranches octokit (owner ref) (repo ref)).
Proof.
  split.
  - unfold postAnalyze. destruct repo_url as [url |]; [| discriminate].
    destruct (Js.isEmpty url); [discriminate |].
    destruct (Js.includes url "github.com"); cbn [negb]; [| discriminate].
    destruct (analyzeRepository octokit base64Length threeMonthsAgo
                generateContent url) as [result | error] eqn:Ha;
      [| discriminate].
    intros _.
    destruct (parseRepoUrl url) as [ref | e] eqn:Hp.
    + destruct (fetchMetrics octokit base64Length threeMonthsAgo
                  (owner ref) (repo ref)) as [m | e] eqn:Hf.
      * exists url, ref. split; [reflexivity |]. split; [exact Hp |].
        destruct (fetchMetrics_Return_inv _ _ _ _ _ _ Hf)
          as (repoData & langs & commits & branches & Hg & Hl & Hc & Hb).
        rewrite Hg, Hl, Hc, Hb. repeat split; apply returns_Return.
      * rewrite (analyzeRepository_fetch_failure _ _ _ _ _ _ _ Hp Hf) in Ha.
        discriminate.
    + rewrite (analyzeRepository_parse_failure _ _ _ _ _ _ Hp) in Ha.
      discriminate.
  - intros (url & ref & -> & Hp & [repoData Hg] & [langs Hl]
            & [commits Hc] & [branches Hb]).
    pose proof (parsed_includes_host _ _ Hp) as Hinc.
    destruct (fetchMetrics_success octokit base64Length threeMonthsAgo
                _ _ _ _ _ _ Hg Hl Hc Hb) as (m & Hm & _).
    destruct (analyzeRepository_fetched octokit base64Length threeMonthsAgo
                generateContent _ _ _ Hp Hm) as (r & insights & _ & _ & Ha).
    unfold postAnalyze.
    rewrite (includes_nonempty _ Hinc), Hinc, Ha. reflexivity.
Qed.

(** X19: a URL that is not empty and that the parser refuses is answered
    400 with [Invalid GitHub URL] when it does not hold the host name,
    and 500 with the same message behind the prefix of the analysis when
    it does: the status of a malformed URL depends on whether it
    mentions the host. *)
Theorem postAnalyze_refused_url
  (octokit : Octokit) (base64Length : string -> Z) (threeMonthsAgo : Z)
  (generateContent : string -> completion string)
  (url : string) (e : JsError) :
  url <> EmptyString ->
  parseRepoUrl url = Throw e ->
  postAnalyze octokit base64Length threeMonthsAgo generateContent (Some url)
  = if Js.includes url "github.com"
    then {| status := 500;
            body := FailureBody "Analysis failed: Invalid GitHub URL" |}
    else {| status := 400; body := FailureBody "Invalid GitHub URL" |}.
Proof.
  intros Hne Hp. unfold postAnalyze.
  destruct url as [| c url]; [congruence |]. cbn [Js.isEmpty].
  destruct (Js.includes (String c url) "github.com"); cbn [negb];
    [| reflexivity].
  rewrite (analyzeRepository_parse_failure _ _ _ _ _ _ Hp).
  apply parseRepoUrl_Throw_inv in Hp as [-> _]. reflexivity.
Qed.

Lemma postAnalyze_refused_url_witness :
  postAnalyze bareRepoClient (fun _ => 0) 1650000000000 failingModel
    (Some "https://github.com/octocat")
  = if Js.includes "https://github.com/octocat" "github.com"
    then {| status := 500;
            body := FailureBody "Analysis failed: Invalid GitHub URL" |}
    else {| status := 400; body := FailureBody "Invalid GitHub URL" |}.
Proof.
  apply (postAnalyze_refused_url bareRepoClient (fun _ => 0) 1650000000000
           failingModel "https://github.com/octocat"
           (Error "Invalid GitHub URL"));
    [discriminate | vm_compute; reflexivity].
Defined.
